(** * url_unshortener.py: resolving the short links of one CSV column

    A shallow embedding of [unshorten_url] and [process_csv] of
    [src/url_unshortener.py].  The Python code talks to three libraries:
    [requests] (one HEAD request per call), [urllib.parse] (the
    components of the final URL) and [csv] (rows in, rows out).  The
    first two are the environment of the embedding, kept abstract inside
    [Section Program]; the CSV reader is represented by the rows it
    yields and the CSV writer by the rows it is given. *)

From Stdlib Require Import String Ascii List ZArith Bool Lia.
From Stdlib Require Import DecimalString.
Import ListNotations.
Open Scope string_scope.
Open Scope Z_scope.

(** ** Python values, exceptions and effects *)

(** The exception classes the program can meet.  [RequestException] is
    [requests.RequestException] with all its subclasses (connection
    errors, timeouts, TLS errors, invalid URLs, ...), carrying [str(e)];
    [OtherException] is any class outside that hierarchy and outside the
    three builtin ones named here. *)
Inductive exception : Type :=
| RequestException (description : string)
| StopIteration
| UnboundLocalError (name : string)
| IndexError
| OtherException (class_name description : string).

(** Outcome of evaluating a Python expression: a value or a raised
    exception. *)
Inductive py (A : Type) : Type :=
| Return (a : A)
| Raise (e : exception).
Arguments Return {A} a.
Arguments Raise {A} e.

(** What the program does to the outside world, in the order it does
    it: HEAD requests sent and lines printed. *)
Inductive event : Type :=
| Head (url : string)
| Printed (line : string).

Definition row := list string.

(** The state threaded through the program: [output] is the content of
    the [io.StringIO] behind [csv.writer], as the rows written to it so
    far; [trace] is the history of outside events. *)
Record state : Type := mkState {
  output : list row;
  trace : list event
}.

(** State and exception monad; the state survives a raised exception,
    as the buffer and the network do. *)
Definition M (A : Type) : Type := state -> py A * state.

Definition ret {A} (a : A) : M A := fun s => (Return a, s).
Definition raise {A} (e : exception) : M A := fun s => (Raise e, s).
Definition bind {A B} (m : M A) (k : A -> M B) : M B :=
  fun s => match m s with
           | (Return a, s') => k a s'
           | (Raise e, s') => (Raise e, s')
           end.
Definition lift {A} (v : py A) : M A := fun s => (v, s).

Notation "x <- m ;; k" := (bind m (fun x => k))
  (at level 61, m at next level, right associativity).
Notation "m ;;; k" := (bind m (fun _ => k))
  (at level 61, right associativity).

(** [try: body except requests.RequestException as e: handler(str(e))] *)
Definition try_except_RequestException {A} (body : M A) (handler : string -> M A)
  : M A :=
  fun s => match body s with
           | (Raise (RequestException d), s') => handler d s'
           | other => other
           end.

(** [print(line)] *)
Definition py_print (line : string) : M unit :=
  fun s => (Return tt, mkState (output s) (trace s ++ [Printed line])%list).

(** [writer.writerow(r)] *)
Definition writerow (r : row) : M unit :=
  fun s => (Return tt, mkState (output s ++ [r])%list (trace s)).

(** [output = io.StringIO()]: a fresh, empty buffer. *)
Definition new_StringIO : M unit :=
  fun s => (Return tt, mkState [] (trace s)).

(** [output.getvalue()] *)
Definition getvalue : M (list row) :=
  fun s => (Return (output s), s).

(** [x in l] for a list of strings: equality of some element with [x]. *)
Definition py_in (x : string) (l : list string) : bool :=
  existsb (String.eqb x) l.
Arguments py_in : simpl never.

(** [l[i]] with Python's indexing: a negative index counts from the end,
    an index outside [-len(l), len(l)) raises IndexError. *)
Definition py_getitem {A} (l : list A) (i : Z) : py A :=
  let n := Z.of_nat (length l) in
  let j := if i <? 0 then i + n else i in
  if (j <? 0) || (n <=? j) then Raise IndexError
  else match nth_error l (Z.to_nat j) with
       | Some a => Return a
       | None => Raise IndexError
       end.

(** ** csv *)

(** [csv.reader] over the UTF-8 decoding of the file content, as the
    iterator the program consumes: it yields rows in file order and ends
    either exhausted or with the exception the decoder or the parser
    raises (UnicodeDecodeError, csv.Error). *)
Inductive csv_reader : Type :=
| Exhausted
| Yield (r : row) (rest : csv_reader)
| Fails (e : exception).

(** The rows a reader yields before it ends. *)
Fixpoint rows_of (reader : csv_reader) : list row :=
  match reader with
  | Yield r rest => r :: rows_of rest
  | _ => []
  end.

(** A reader over well-formed content: the given rows, then exhaustion. *)
Fixpoint reader_of (rows : list row) : csv_reader :=
  match rows with
  | [] => Exhausted
  | r :: rows' => Yield r (reader_of rows')
  end.

(** ** urllib.parse *)

(** The result of [urlparse].  Of its six components the program reads
    [netloc] only, and the record keeps that one. *)
Record ParseResult : Type := mkParseResult {
  netloc : string
}.

Module UrlParse.

Definition lower_ascii (c : ascii) : ascii :=
  let n := nat_of_ascii c in
  if (Nat.leb 65 n && Nat.leb n 90)%bool then ascii_of_nat (n + 32) else c.

Fixpoint lower (s : string) : string :=
  match s with
  | EmptyString => EmptyString
  | String c s' => String (lower_ascii c) (lower s')
  end.

(** [s.partition(c)]: (before, found, after) around the first [c]. *)
Fixpoint partition (c : ascii) (s : string) : string * bool * string :=
  match s with
  | EmptyString => (EmptyString, false, EmptyString)
  | String a s' =>
      if Ascii.eqb a c then (EmptyString, true, s')
      else let '(b, f, r) := partition c s' in (String a b, f, r)
  end.

(** The third component of [s.rpartition(c)]: what follows the last
    [c], the whole of [s] when there is none. *)
Fixpoint after_last (c : ascii) (s : string) : string :=
  match s with
  | EmptyString => EmptyString
  | String a s' =>
      let '(_, f, _) := partition c s' in
      if f then after_last c s'
      else if Ascii.eqb a c then s' else s
  end.

(** The first component of [_hostinfo]. *)
Definition hostinfo_host (nl : string) : string :=
  let hostinfo := after_last "@" nl in
  let '(_, have_open_br, bracketed) := partition "[" hostinfo in
  if have_open_br then
    let '(h, _, _) := partition "]" bracketed in h
  else
    let '(h, _, _) := partition ":" hostinfo in h.

(** The [hostname] property: the host of the network location, without
    user information and port, in lower case up to an IPv6 zone;
    [None] when it is empty. *)
Definition hostname (p : ParseResult) : option string :=
  let h := hostinfo_host (netloc p) in
  match h with
  | EmptyString => None
  | _ => let '(h0, percent, zone) := partition "%" h in
         Some (lower h0 ++ (if percent then "%" else "") ++ zone)
  end.

(** *** A reference [urlparse]

    The network location as [urlsplit] computes it: leading C0
    controls and spaces are stripped, tabs and newlines removed, a
    scheme is split off at the first colon when what precedes it is a
    letter followed by scheme characters, and after a leading [//] the
    network location runs up to the first of [/], [?] and [#].  A
    bracket without its partner raises ValueError.  (The checks that
    newer versions make inside a bracketed host and on non-ASCII
    network locations are not modelled.)  The theorems below hold for
    every [urlparse]; this one serves the examples. *)

Definition is_c0_or_space (c : ascii) : bool :=
  Nat.leb (nat_of_ascii c) 32.

Fixpoint lstrip (s : string) : string :=
  match s with
  | String c s' => if is_c0_or_space c then lstrip s' else s
  | EmptyString => EmptyString
  end.

Definition is_unsafe (c : ascii) : bool :=
  let n := nat_of_ascii c in
  (Nat.eqb n 9 || Nat.eqb n 10 || Nat.eqb n 13)%bool.

Fixpoint remove_unsafe (s : string) : string :=
  match s with
  | String c s' =>
      if is_unsafe c then remove_unsafe s' else String c (remove_unsafe s')
  | EmptyString => EmptyString
  end.

Definition is_alpha (c : ascii) : bool :=
  let n := nat_of_ascii c in
  ((Nat.leb 65 n && Nat.leb n 90) || (Nat.leb 97 n && Nat.leb n 122))%bool.

Definition is_scheme_char (c : ascii) : bool :=
  let n := nat_of_ascii c in
  (is_alpha c || (Nat.leb 48 n && Nat.leb n 57)
   || Nat.eqb n 43 || Nat.eqb n 45 || Nat.eqb n 46)%bool.

Fixpoint all_chars (f : ascii -> bool) (s : string) : bool :=
  match s with
  | String c s' => (f c && all_chars f s')%bool
  | EmptyString => true
  end.

Fixpoint contains (c : ascii) (s : string) : bool :=
  match s with
  | String a s' => (Ascii.eqb a c || contains c s')%bool
  | EmptyString => false
  end.

Definition is_delim (c : ascii) : bool :=
  (Ascii.eqb c "/" || Ascii.eqb c "?" || Ascii.eqb c "#")%bool.

(** The first component of [_splitnetloc]. *)
Fixpoint until_delim (s : string) : string :=
  match s with
  | String c s' => if is_delim c then EmptyString else String c (until_delim s')
  | EmptyString => EmptyString
  end.

Definition has_scheme (before : string) : bool :=
  match before with
  | String c _ => (is_alpha c && all_chars is_scheme_char before)%bool
  | EmptyString => false
  end.

Definition urlparse (url : string) : py ParseResult :=
  let url := remove_unsafe (lstrip url) in
  let '(before, found, after) := partition ":" url in
  let rest := if (found && has_scheme before)%bool then after else url in
  match rest with
  | String "/" (String "/" r) =>
      let nl := until_delim r in
      if xorb (contains "[" nl) (contains "]" nl)
      then Raise (OtherException "ValueError" "Invalid IPv6 URL")
      else Return (mkParseResult nl)
  | _ => Return (mkParseResult "")
  end.

End UrlParse.

(** ** The program *)

Definition shortener_domains : list string :=
  ["bit.ly"; "tinyurl.com"; "goo.gl"; "t.co"; "shorturl.at"; "lnkd.in"].

(** Case analysis on membership in the denylist: one goal per entry. *)
Ltac each_shortener H :=
  unfold shortener_domains in H; simpl in H;
  destruct H as [H | [H | [H | [H | [H | [H | []]]]]]]; subst.

Section Program.

(** [requests.head(url, allow_redirects=True, timeout=10).url]: the URL
    of the final response, or the exception the call raises.  The
    outcome may depend on everything that happened before. *)
Variable requests_head : list event -> string -> py string.

(** [urllib.parse.urlparse]; it raises ValueError on some inputs. *)
Variable urlparse : string -> py ParseResult.

(** The HEAD request as an action: it is recorded in the trace whatever
    its outcome. *)
Definition head (url : string) : M string :=
  fun s => (requests_head (trace s) url,
            mkState (output s) (trace s ++ [Head url])%list).

Definition unshorten_url (url : string) : M string :=
  try_except_RequestException
    (final_url <- head url ;;
     parsed_url <- lift (urlparse final_url) ;;
     if py_in (netloc parsed_url) shortener_domains
     then ret "Error: Still on shortener domain"
     else ret final_url)
    (fun e => ret ("Error: " ++ e)).

(** [shortened_url] and [unshortened_url], the two local variables of
    [process_csv] bound inside the loop only; [None] is unbound. *)
Record locals : Type := mkLocals {
  shortened_url : option string;
  unshortened_url : option string
}.

Definition no_locals : locals := mkLocals None None.

(** Reading a local variable. *)
Definition load_local (name : string) (v : option string) : M string :=
  match v with
  | Some x => ret x
  | None => raise (UnboundLocalError name)
  end.

(** [next(reader)] *)
Definition next (reader : csv_reader) : M (row * csv_reader) :=
  match reader with
  | Yield r rest => ret (r, rest)
  | Exhausted => raise StopIteration
  | Fails e => raise e
  end.

(** The [if]/[else] of the loop: the row with its new cell, and the
    local variables afterwards. *)
Definition append_result (column_index : Z) (r : row) (lv : locals)
  : M (row * locals) :=
  if Z.of_nat (length r) >? column_index then
    su <- lift (py_getitem r column_index) ;;
    uu <- unshorten_url su ;;
    ret ((r ++ [uu])%list, mkLocals (Some su) (Some uu))
  else
    ret ((r ++ ["Error: Column index out of range"])%list, lv).

(** The body of [for row in reader]. *)
Definition loop_body (column_index : Z) (r : row) (lv : locals) : M locals :=
  rl <- append_result column_index r lv ;;
  writerow (fst rl) ;;;
  r0 <- lift (py_getitem (fst rl) 0) ;;
  su <- load_local "shortened_url" (shortened_url (snd rl)) ;;
  uu <- load_local "unshortened_url" (unshortened_url (snd rl)) ;;
  py_print ("Processed: " ++ r0 ++ " - " ++ su ++ " -> " ++ uu) ;;;
  ret (snd rl).

(** [for row in reader: ...] *)
Fixpoint for_rows (column_index : Z) (reader : csv_reader) (lv : locals)
  : M unit :=
  match reader with
  | Exhausted => ret tt
  | Fails e => raise e
  | Yield r rest =>
      lv' <- loop_body column_index r lv ;;
      for_rows column_index rest lv'
  end.

Definition process_csv (file_content : csv_reader) (column_index : Z)
  : M (list row) :=
  new_StringIO ;;;
  hr <- next file_content ;;
  let header := (fst hr ++ ["Unshortened URL"])%list in
  writerow header ;;;
  for_rows column_index (snd hr) no_locals ;;;
  getvalue.

End Program.


(** ** Sample environments

    A resolver as a test would stub it: every HEAD request ends on the
    URL it was sent to, except for the listed hosts. *)

Definition long_label_url : string :=
  "http://aaaaaaaaaaaaaaaaaaaaaaaaaaaaaaaaaaaaaaaaaaaaaaaaaaaaaaaaaaaaaaaa.com/".

Definition sample_head (_ : list event) (url : string) : py string :=
  if String.eqb url "http://short.example/a" then
    Return "https://example.com/final"
  else if String.eqb url "http://badhost.invalid" then
    Raise (RequestException "Failed to resolve 'badhost.invalid'")
  else if String.eqb url long_label_url then
    (* a host label of 64 characters: the connection layer rejects it
       with an exception outside the RequestException hierarchy *)
    Raise (OtherException "LocationParseError" "label empty or too long")
  else Return url.

Definition s0 : state := mkState [] [].

(** A file with a header and four data rows: a short link, a row with
    one cell only, a host that does not resolve, and a link that stays
    on bit.ly. *)
Definition sample_rows : list row :=
  [ ["id"; "url"];
    ["1"; "http://short.example/a"];
    ["2"];
    ["3"; "http://badhost.invalid"];
    ["4"; "http://bit.ly/3xYz"] ].

Definition sample_out : list row :=
  [ ["id"; "url"; "Unshortened URL"];
    ["1"; "http://short.example/a"; "https://example.com/final"];
    ["2"; "Error: Column index out of range"];
    ["3"; "http://badhost.invalid"; "Error: Failed to resolve 'badhost.invalid'"];
    ["4"; "http://bit.ly/3xYz"; "Error: Still on shortener domain"] ].

(** The same header over a first data row that is too short. *)
Definition short_first_rows : list row :=
  [ ["id"; "url"];
    ["1"];
    ["2"; "http://short.example/a"] ].

(** ** Vocabulary of the statements about [process_csv] *)

(** The URLs of the HEAD requests of a trace, in the order sent. *)
Definition requests_of (t : list event) : list string :=
  flat_map (fun e => match e with Head u => [u] | Printed _ => [] end) t.

(** Rows with one cell appended to each, row by row. *)
Definition append_cells (rows : list row) (cells : list string) : list row :=
  map (fun rc => (fst rc ++ [snd rc])%list) (combine rows cells).

(** One completed iteration of the loop on row [r], seen from outside:
    the cell appended and the events caused.  A row too short for the
    column gets the range error and causes no request; any other row
    gets a cell after exactly one request, for the cell at the column
    index.  Each iteration ends with its progress line. *)
Definition row_step (column_index : Z) (r : row) (step : string * list event)
  : Prop :=
  (Z.of_nat (length r) <= column_index /\
   fst step = "Error: Column index out of range" /\
   exists line, snd step = [Printed line])
  \/
  (column_index < Z.of_nat (length r) /\
   exists u line, py_getitem r column_index = Return u /\
                  snd step = [Head u; Printed line]).

(** Both loop variables are bound. *)
Definition bound (lv : locals) : Prop :=
  shortened_url lv <> None /\ unshortened_url lv <> None.

(** The libraries raise nothing but [requests.RequestException]. *)
Definition only_request_exceptions
    (requests_head : list event -> string -> py string)
    (urlparse : string -> py ParseResult) : Prop :=
  (forall t url e, requests_head t url = Raise e ->
                   exists d, e = RequestException d) /\
  (forall url e, urlparse url = Raise e -> exists d, e = RequestException d).

(** ** The rest of the script: upload, column choice, download

    [get_csv_file], [get_column_selection], [save_and_download_csv] and
    [main] talk to the user and to the Colab file helpers.  Their world
    extends the state of the transformer with the lines still waiting on
    standard input, the prompts [input] has shown, the files written and
    the downloads triggered. *)

Record world : Type := mkWorld {
  core : state;
  stdin : list string;
  prompts : list string;
  written : list (string * list row);
  downloads : list string
}.

Definition W (A : Type) : Type := world -> py A * world.

Definition retW {A} (a : A) : W A := fun w => (Return a, w).
Definition raiseW {A} (e : exception) : W A := fun w => (Raise e, w).
Definition bindW {A B} (m : W A) (k : A -> W B) : W B :=
  fun w => match m w with
           | (Return a, w') => k a w'
           | (Raise e, w') => (Raise e, w')
           end.
Definition liftW {A} (v : py A) : W A := fun w => (v, w).

Notation "x <~ m ;; k" := (bindW m (fun x => k))
  (at level 61, m at next level, right associativity).
Notation "m ;;~ k" := (bindW m (fun _ => k))
  (at level 61, right associativity).

(** An action of the transformer, run inside the world. *)
Definition run {A} (m : M A) : W A :=
  fun w => let (r, s') := m (core w) in
           (r, mkWorld s' (stdin w) (prompts w) (written w) (downloads w)).

(** [print(line)] *)
Definition printW (line : string) : W unit := run (py_print line).

(** [input(prompt)]: the prompt is shown, then the next line of standard
    input is taken; at the end of input EOFError is raised. *)
Definition input (prompt : string) : W string :=
  fun w =>
    let shown := (prompts w ++ [prompt])%list in
    match stdin w with
    | line :: rest =>
        (Return line, mkWorld (core w) rest shown (written w) (downloads w))
    | [] =>
        (Raise (OtherException "EOFError" "EOF when reading a line"),
         mkWorld (core w) [] shown (written w) (downloads w))
    end.

(** The builtin classes that are not subclasses of [Exception]. *)
Definition outside_Exception : list string :=
  ["BaseException"; "KeyboardInterrupt"; "SystemExit"; "GeneratorExit"].

Definition is_Exception (e : exception) : bool :=
  match e with
  | OtherException class_name _ => negb (py_in class_name outside_Exception)
  | _ => true
  end.

(** [try: body except Exception as e: handler(e)] *)
Definition try_except_Exception {A} (body : W A) (handler : exception -> W A)
  : W A :=
  fun w => match body w with
           | (Raise e, w') =>
               if is_Exception e then handler e w' else (Raise e, w')
           | other => other
           end.

(** [str(i)] for a non-negative integer. *)
Definition str_of_nat (i : nat) : string :=
  NilEmpty.string_of_uint (Nat.to_uint i).

(** [next(iter(d))] on a dict, kept as its items in insertion order. *)
Definition dict_first_key {V} (d : list (string * V)) : py string :=
  match d with
  | (k, _) :: _ => Return k
  | [] => Raise StopIteration
  end.

(** [d[k]] *)
Fixpoint dict_getitem {V} (d : list (string * V)) (k : string) : py V :=
  match d with
  | [] => Raise (OtherException "KeyError" ("'" ++ k ++ "'"))
  | (k', v) :: d' => if String.eqb k k' then Return v else dict_getitem d' k
  end.

Section Shell.

Variable requests_head : list event -> string -> py string.
Variable urlparse : string -> py ParseResult.

(** [int(s)] on a string: the integer, or [None] for ValueError, the
    only exception it raises on a string. *)
Variable py_int : string -> option Z.

(** [files.upload()]: the uploaded files, name to content, or the
    exception raised.  A content stands for itself as the reader over
    it, as in [process_csv]. *)
Variable files_upload : py (list (string * csv_reader)).

(** Whether [open(filename, 'w', ...)] succeeds, and the exception it
    raises otherwise. *)
Variable open_w : string -> py unit.

(** [files.download(filename)] *)
Variable files_download : string -> py unit.

(** The text of an UnboundLocalError for a variable name; it differs
    between Python versions. *)
Variable unbound_message : string -> string.

(** [str(e)] *)
Definition py_str (e : exception) : string :=
  match e with
  | RequestException d => d
  | StopIteration => ""
  | UnboundLocalError name => unbound_message name
  | IndexError => "list index out of range"
  | OtherException _ d => d
  end.

Definition get_csv_file : W (string * csv_reader) :=
  printW "Please upload your CSV file." ;;~
  uploaded <~ liftW files_upload ;;
  filename <~ liftW (dict_first_key uploaded) ;;
  content <~ liftW (dict_getitem uploaded filename) ;;
  retW (filename, content).

(** [for i, col in enumerate(header): print(f"{i}: {col}")], from index
    [i] on. *)
Fixpoint print_columns (i : nat) (header : row) : W unit :=
  match header with
  | [] => retW tt
  | col :: rest =>
      printW (str_of_nat i ++ ": " ++ col) ;;~
      print_columns (S i) rest
  end.

Definition column_prompt : string :=
  "Enter the number of the column containing the URLs to unshorten: ".

(** [0 <= column_index < len(header)] *)
Definition valid_selection (header : row) (column_index : Z) : bool :=
  (0 <=? column_index) && (column_index <? Z.of_nat (length header)).

(** The [while True] loop, unrolled along the lines waiting on standard
    input: each turn shows the prompt and takes one line; a line that is
    no integer (ValueError) or an integer outside the header is answered
    with its message and the loop goes on; at the end of input [input]
    raises EOFError, which the loop does not catch. *)
Fixpoint ask_column (header : row) (lines : list string) : W Z :=
  match lines with
  | [] =>
      _ <~ input column_prompt ;;
      raiseW (OtherException "EOFError" "EOF when reading a line")
  | _ :: rest =>
      line <~ input column_prompt ;;
      match py_int line with
      | Some column_index =>
          if valid_selection header column_index then retW column_index
          else
            printW "Invalid selection. Please choose a number from the list." ;;~
            ask_column header rest
      | None =>
          printW "Please enter a valid number." ;;~
          ask_column header rest
      end
  end.

Definition get_column_selection (header : row) : W Z :=
  printW "Available columns:" ;;~
  print_columns 0 header ;;~
  fun w => ask_column header (stdin w) w.

(** [f.write(content)] inside the [with] block: the file now holds the
    content. *)
Definition write_file (filename : string) (content : list row) : W unit :=
  fun w => (Return tt,
            mkWorld (core w) (stdin w) (prompts w)
                    (written w ++ [(filename, content)])%list (downloads w)).

(** A download that [files.download] did not refuse. *)
Definition record_download (filename : string) : W unit :=
  fun w => (Return tt,
            mkWorld (core w) (stdin w) (prompts w) (written w)
                    (downloads w ++ [filename])%list).

Definition save_and_download_csv (content : list row) (filename : string)
  : W unit :=
  liftW (open_w filename) ;;~
  write_file filename content ;;~
  liftW (files_download filename) ;;~
  record_download filename.

(** The body of the [try] in [main]. *)
Definition main_body : W unit :=
  fc <~ get_csv_file ;;
  hr <~ run (next (snd fc)) ;;
  column_index <~ get_column_selection (fst hr) ;;
  processed_content <~
    run (process_csv requests_head urlparse (snd fc) column_index) ;;
  let output_filename := "unshortened_" ++ fst fc in
  save_and_download_csv processed_content output_filename ;;~
  printW ("Processing complete. Results downloaded as " ++ output_filename).

Definition main : W unit :=
  try_except_Exception
    main_body
    (fun e => printW ("An error occurred: " ++ py_str e)).

End Shell.

(** *** A sample session

    One file is uploaded, writing and downloading succeed, and [int]
    reads plain decimal numerals (Python's also accepts a sign, spaces
    around and underscores between digits; the examples use none). *)

Definition is_digit (c : ascii) : bool :=
  let n := nat_of_ascii c in (Nat.leb 48 n && Nat.leb n 57)%bool.

Fixpoint digits_value (acc : Z) (s : string) : option Z :=
  match s with
  | EmptyString => Some acc
  | String c s' =>
      if is_digit c
      then digits_value (10 * acc + Z.of_nat (nat_of_ascii c - 48)) s'
      else None
  end.

Definition sample_int (s : string) : option Z :=
  match s with
  | EmptyString => None
  | _ => digits_value 0 s
  end.

Definition sample_upload : py (list (string * csv_reader)) :=
  Return [("links.csv", reader_of sample_rows)].

Definition sample_open (_ : string) : py unit := Return tt.
Definition sample_download (_ : string) : py unit := Return tt.

Definition sample_unbound_message (name : string) : string :=
  "cannot access local variable '" ++ name
  ++ "' where it is not associated with a value".

Definition sample_main (upload : py (list (string * csv_reader))) : W unit :=
  main sample_head UrlParse.urlparse sample_int upload sample_open
       sample_download sample_unbound_message.

(** A world where the user will type the given lines. *)
Definition typing (lines : list string) : world :=
  mkWorld s0 lines [] [] [].

(** ** Vocabulary of the further statements *)

(** The request does not depend on what happened before. *)
Definition history_free (requests_head : list event -> string -> py string)
  : Prop :=
  forall t t' url, requests_head t url = requests_head t' url.

(** What one row becomes, for a resolver that is [history_free]: the
    row with the range error, or with the answer of [unshorten_url] for
    the cell at the column index. *)
Definition transform_row
    (requests_head : list event -> string -> py string)
    (urlparse : string -> py ParseResult)
    (column_index : Z) (r : row) : py row :=
  if Z.of_nat (length r) >? column_index then
    match py_getitem r column_index with
    | Return su =>
        match fst (unshorten_url requests_head urlparse su s0) with
        | Return uu => Return (r ++ [uu])%list
        | Raise e => Raise e
        end
    | Raise e => Raise e
    end
  else Return (r ++ ["Error: Column index out of range"])%list.

(** The URL a row makes [process_csv] request, if any. *)
Definition requested (column_index : Z) (r : row) : list string :=
  if Z.of_nat (length r) >? column_index then
    match py_getitem r column_index with
    | Return su => [su]
    | Raise _ => []
    end
  else [].



(** A file whose only link has a host label of 64 characters. *)
Definition long_label_rows : list row :=
  [ ["id"; "url"]; ["1"; long_label_url] ].

(** A resolver during which the user interrupts the kernel: every
    request ends in KeyboardInterrupt. *)
Definition interrupted_head (_ : list event) (_ : string) : py string :=
  Raise (OtherException "KeyboardInterrupt" "").

(** The selection loop turns a line down. *)
Definition rejected (py_int : string -> option Z) (header : row) (line : string)
  : Prop :=
  match py_int line with
  | Some column_index => valid_selection header column_index = false
  | None => True
  end.

(** How a reader ends: exhausted ([None]) or with an exception. *)
Fixpoint reader_end (reader : csv_reader) : option exception :=
  match reader with
  | Exhausted => None
  | Yield _ rest => reader_end rest
  | Fails e => Some e
  end.

(** [unshorten_url] returns on each of the given URLs, whatever happened
    before: none of them makes the libraries raise anything but a
    request exception. *)
Definition resolvable
    (requests_head : list event -> string -> py string)
    (urlparse : string -> py ParseResult) (urls : list string) : Prop :=
  forall u s, In u urls ->
    exists c, fst (unshorten_url requests_head urlparse u s) = Return c.

(** The answer of the selection loop to a line it turns down. *)
Definition rejection_message (py_int : string -> option Z) (line : string)
  : string :=
  match py_int line with
  | Some _ => "Invalid selection. Please choose a number from the list."
  | None => "Please enter a valid number."
  end.

(** The lines that list the columns, numbered from [i]. *)
Fixpoint column_lines (i : nat) (header : row) : list string :=
  match header with
  | [] => []
  | col :: rest => (str_of_nat i ++ ": " ++ col) :: column_lines (S i) rest
  end.

(** The world after the given lines have been printed. *)
Definition printed (lines : list string) (w : world) : world :=
  mkWorld (mkState (output (core w))
                   (trace (core w) ++ map Printed lines)%list)
          (stdin w) (prompts w) (written w) (downloads w).

(** The world in which [main] calls [process_csv]: the upload notice and
    the menu have been printed and the lines [bad] turned down. *)
Definition after_selection (py_int : string -> option Z) (header : row)
    (bad more : list string) (w : world) : world :=
  mkWorld
    (core (printed (("Available columns:" :: column_lines 0 header)
                      ++ map (rejection_message py_int) bad)
                   (printed ["Please upload your CSV file."] w)))
    more
    (prompts w ++ repeat column_prompt (S (length bad)))
    (written w) (downloads w).

(** How [main] ends after a failure: an exception of class [Exception]
    is reported on a last printed line and [main] returns; any other
    exception goes on to the caller. *)
Definition failure_reported (unbound_message : string -> string)
    (r : py unit) (w' : world) : Prop :=
  (r = Return tt /\
   exists e w0, is_Exception e = true /\
     w' = printed ["An error occurred: " ++ py_str unbound_message e] w0)
  \/
  (exists e, r = Raise e /\ is_Exception e = false).

(** The document [out] is what [process_csv] returned for the first
    uploaded file, [filename] with the given content, and a column index
    inside its header. *)
Definition processed_upload
    (requests_head : list event -> string -> py string)
    (urlparse : string -> py ParseResult)
    (files_upload : py (list (string * csv_reader)))
    (filename : string) (content : csv_reader) (out : list row) : Prop :=
  exists others header rest column_index s,
    files_upload = Return ((filename, content) :: others) /\
    content = Yield header rest /\
    valid_selection header column_index = true /\
    fst (process_csv requests_head urlparse content column_index s)
    = Return out.

(** * The URL resolver *)

Section Resolver.

Variable requests_head : list event -> string -> py string.
Variable urlparse : string -> py ParseResult.

(** Python's [in] on the denylist is membership up to string equality. *)
Lemma py_in_In (x : string) (l : list string) :
  py_in x l = true <-> In x l.
Proof.
  unfold py_in. rewrite existsb_exists. split.
  - intros [y [Hy E]]. apply String.eqb_eq in E. now subst.
  - intros H. exists x. split; [assumption | apply String.eqb_refl].
Qed.

Lemma py_in_not_In (x : string) (l : list string) :
  py_in x l = false <-> ~ In x l.
Proof.
  rewrite <- py_in_In. destruct (py_in x l); split; congruence.
Qed.

(** Every call issues one HEAD request, whatever its outcome, and
    leaves the output buffer alone. *)
Lemma unshorten_url_state (url : string) (s : state) :
  snd (unshorten_url requests_head urlparse url s) = mkState (output s) (trace s ++ [Head url]).
Proof.
  unfold unshorten_url, try_except_RequestException, bind, head, lift, ret.
  destruct (requests_head (trace s) url) as [final | e]; simpl.
  - destruct (urlparse final) as [p | e]; simpl.
    + destruct (py_in (netloc p) shortener_domains); reflexivity.
    + destruct e; reflexivity.
  - destruct e; reflexivity.
Qed.

(** The value of a call, by cases on what the libraries do. *)
Lemma unshorten_url_value (url : string) (s : state) :
  fst (unshorten_url requests_head urlparse url s) =
  match requests_head (trace s) url with
  | Return final_url =>
      match urlparse final_url with
      | Return parsed_url =>
          if py_in (netloc parsed_url) shortener_domains
          then Return "Error: Still on shortener domain"
          else Return final_url
      | Raise (RequestException d) => Return ("Error: " ++ d)
      | Raise e => Raise e
      end
  | Raise (RequestException d) => Return ("Error: " ++ d)
  | Raise e => Raise e
  end.
Proof.
  unfold unshorten_url, try_except_RequestException, bind, head, lift, ret.
  destruct (requests_head (trace s) url) as [final | e]; simpl.
  - destruct (urlparse final) as [p | e]; simpl.
    + destruct (py_in (netloc p) shortener_domains); reflexivity.
    + destruct e; reflexivity.
  - destruct e; reflexivity.
Qed.

End Resolver.

(** On the denylist the host of a network location is the network
    location itself. *)
Lemma hostname_of_shortener (nl : string) :
  In nl shortener_domains -> UrlParse.hostname (mkParseResult nl) = Some nl.
Proof. intros H. each_shortener H; reflexivity. Qed.

Lemma shortener_domains_lower (d : string) :
  In d shortener_domains -> UrlParse.lower d = d.
Proof. intros H. each_shortener H; reflexivity. Qed.

Lemma www_prefix_not_shortener (d : string) :
  In d shortener_domains -> ~ In ("www." ++ d) shortener_domains.
Proof.
  intros Hd Hw. each_shortener Hd; each_shortener Hw; discriminate Hw.
Qed.

Lemma with_port_not_shortener (d port : string) :
  In d shortener_domains -> ~ In (d ++ ":" ++ port) shortener_domains.
Proof.
  intros Hd Hp. each_shortener Hd; each_shortener Hp; discriminate Hp.
Qed.

Lemma other_case_not_shortener (nl d : string) :
  In d shortener_domains -> nl <> d -> UrlParse.lower nl = d ->
  ~ In nl shortener_domains.
Proof.
  intros Hd Hne Hlow Hnl.
  apply shortener_domains_lower in Hnl. congruence.
Qed.

(** ** Claims about [unshorten_url] *)

(** C3, as amended: when the request succeeds and the network location
    of the final URL (host together with any user information and port,
    letter case kept) equals one of the six denylist strings,
    [unshorten_url] returns exactly "Error: Still on shortener domain". *)
Theorem unshorten_url_still_on_shortener
    (requests_head : list event -> string -> py string)
    (urlparse : string -> py ParseResult)
    (url : string) (s : state) (final_url : string) (parsed_url : ParseResult) :
  requests_head (trace s) url = Return final_url ->
  urlparse final_url = Return parsed_url ->
  In (netloc parsed_url) shortener_domains ->
  fst (unshorten_url requests_head urlparse url s)
  = Return "Error: Still on shortener domain".
Proof.
  intros Hh Hp Hin.
  rewrite unshorten_url_value, Hh, Hp.
  apply py_in_In in Hin. now rewrite Hin.
Qed.

(** A final URL on bit.ly itself is reported as still on a shortener. *)
Lemma unshorten_url_still_on_shortener_witness :
  sample_head (trace s0) "http://bit.ly/3xYz" = Return "http://bit.ly/3xYz" /\
  UrlParse.urlparse "http://bit.ly/3xYz" = Return (mkParseResult "bit.ly") /\
  In "bit.ly" shortener_domains /\
  fst (unshorten_url sample_head UrlParse.urlparse "http://bit.ly/3xYz" s0)
  = Return "Error: Still on shortener domain".
Proof.
  split; [reflexivity | split; [reflexivity | split; [simpl; auto | ]]].
  apply (unshorten_url_still_on_shortener sample_head UrlParse.urlparse
           "http://bit.ly/3xYz" s0 "http://bit.ly/3xYz" (mkParseResult "bit.ly")).
  - reflexivity.
  - reflexivity.
  - simpl; auto.
Defined.

(** C3, as stated, fails: the final URL http://bit.ly:80/3xYz has host
    bit.ly, yet its network location bit.ly:80 is not on the denylist and
    the URL is returned as resolved. *)
Lemma shortener_host_with_port_is_returned :
  ~ (forall (requests_head : list event -> string -> py string)
            (urlparse : string -> py ParseResult)
            (url : string) (s : state) (final_url : string)
            (parsed_url : ParseResult),
        requests_head (trace s) url = Return final_url ->
        urlparse final_url = Return parsed_url ->
        (exists d, In d shortener_domains /\
                   UrlParse.hostname parsed_url = Some d) ->
        fst (unshorten_url requests_head urlparse url s)
        = Return "Error: Still on shortener domain").
Proof.
  intros H.
  specialize (H sample_head UrlParse.urlparse "http://bit.ly:80/3xYz" s0
                "http://bit.ly:80/3xYz" (mkParseResult "bit.ly:80")
                eq_refl eq_refl).
  assert (Hhost : exists d, In d shortener_domains /\
            UrlParse.hostname (mkParseResult "bit.ly:80") = Some d).
  { exists "bit.ly". split; [simpl; auto | reflexivity]. }
  specialize (H Hhost). vm_compute in H. discriminate H.
Qed.

(** C7: when the request succeeds and the host of the final URL is not
    one of the denylist hosts, [unshorten_url] returns exactly the final
    URL. *)
Theorem unshorten_url_resolved
    (requests_head : list event -> string -> py string)
    (urlparse : string -> py ParseResult)
    (url : string) (s : state) (final_url : string) (parsed_url : ParseResult) :
  requests_head (trace s) url = Return final_url ->
  urlparse final_url = Return parsed_url ->
  (forall d, In d shortener_domains -> UrlParse.hostname parsed_url <> Some d) ->
  fst (unshorten_url requests_head urlparse url s) = Return final_url.
Proof.
  intros Hh Hp Hhost.
  rewrite unshorten_url_value, Hh, Hp.
  destruct (py_in (netloc parsed_url) shortener_domains) eqn:E; [ | reflexivity].
  apply py_in_In in E. exfalso.
  apply (Hhost (netloc parsed_url) E).
  destruct parsed_url as [nl]. simpl in *. now apply hostname_of_shortener.
Qed.

(** The stubbed redirect to https://example.com/final. *)
Lemma unshorten_url_resolved_witness :
  sample_head (trace s0) "http://short.example/a" = Return "https://example.com/final" /\
  UrlParse.urlparse "https://example.com/final" = Return (mkParseResult "example.com") /\
  (forall d, In d shortener_domains ->
             UrlParse.hostname (mkParseResult "example.com") <> Some d) /\
  fst (unshorten_url sample_head UrlParse.urlparse "http://short.example/a" s0)
  = Return "https://example.com/final".
Proof.
  assert (Hhost : forall d, In d shortener_domains ->
            UrlParse.hostname (mkParseResult "example.com") <> Some d).
  { intros d Hd. each_shortener Hd; vm_compute; discriminate. }
  split; [reflexivity | split; [reflexivity | split; [exact Hhost | ]]].
  exact (unshorten_url_resolved sample_head UrlParse.urlparse
           "http://short.example/a" s0 "https://example.com/final"
           (mkParseResult "example.com") eq_refl eq_refl Hhost).
Defined.

(** The outcomes of [unshorten_url] by what the libraries raise: a
    [requests.RequestException] raised by the HEAD request is turned
    into the string "Error: " followed by its description; when the
    request and the parse of the final URL succeed a string is returned;
    an exception of any other class passes the [except] clause. *)
Theorem unshorten_url_failures
    (requests_head : list event -> string -> py string)
    (urlparse : string -> py ParseResult)
    (url : string) (s : state) :
  (forall d, requests_head (trace s) url = Raise (RequestException d) ->
     fst (unshorten_url requests_head urlparse url s) = Return ("Error: " ++ d))
  /\
  (forall final_url parsed_url,
     requests_head (trace s) url = Return final_url ->
     urlparse final_url = Return parsed_url ->
     exists result, fst (unshorten_url requests_head urlparse url s) = Return result)
  /\
  (forall e, (forall d, e <> RequestException d) ->
     requests_head (trace s) url = Raise e \/
     (exists final_url, requests_head (trace s) url = Return final_url /\
                        urlparse final_url = Raise e) ->
     fst (unshorten_url requests_head urlparse url s) = Raise e).
Proof.
  rewrite unshorten_url_value.
  split; [ | split].
  - intros d H. now rewrite H.
  - intros final_url parsed_url Hh Hp. rewrite Hh, Hp.
    destruct (py_in (netloc parsed_url) shortener_domains); eauto.
  - intros e Hne [H | [final_url [Hh Hp]]].
    + rewrite H. destruct e; try reflexivity. now destruct (Hne description).
    + rewrite Hh, Hp. destruct e; try reflexivity. now destruct (Hne description).
Qed.

(** The three cases on the sample resolver: an unresolvable host, a
    plain redirect, and a host label the connection layer rejects. *)
Lemma unshorten_url_failures_witness :
  fst (unshorten_url sample_head UrlParse.urlparse "http://badhost.invalid" s0)
  = Return "Error: Failed to resolve 'badhost.invalid'" /\
  (exists result,
     fst (unshorten_url sample_head UrlParse.urlparse "http://short.example/a" s0)
     = Return result) /\
  fst (unshorten_url sample_head UrlParse.urlparse long_label_url s0)
  = Raise (OtherException "LocationParseError" "label empty or too long").
Proof.
  split; [ | split].
  - apply (proj1 (unshorten_url_failures sample_head UrlParse.urlparse
                    "http://badhost.invalid" s0)).
    reflexivity.
  - apply (proj1 (proj2 (unshorten_url_failures sample_head UrlParse.urlparse
                           "http://short.example/a" s0))
             "https://example.com/final" (mkParseResult "example.com"));
      reflexivity.
  - apply (proj2 (proj2 (unshorten_url_failures sample_head UrlParse.urlparse
                           long_label_url s0))).
    + intros d; discriminate.
    + left; reflexivity.
Defined.

(** Not every call of [unshorten_url] returns a string. *)
Lemma unshorten_url_lets_other_exceptions_escape :
  ~ (forall (requests_head : list event -> string -> py string)
            (urlparse : string -> py ParseResult)
            (url : string) (s : state),
        exists result,
          fst (unshorten_url requests_head urlparse url s) = Return result).
Proof.
  intros H.
  destruct (H sample_head UrlParse.urlparse long_label_url s0) as [result Hr].
  vm_compute in Hr. discriminate Hr.
Qed.

(** C4 does not hold on this input: the URL has a host label of 64
    characters.  The HEAD request raises LocationParseError, which is no
    [requests.RequestException]; the [except] clause does not match and
    the exception leaves [unshorten_url], which returns no string.  On
    the sibling failure, a host that does not resolve, the request
    exception is caught and the "Error: ..." string is returned, as the
    docstring promises for every call. *)
Theorem unshorten_url_long_label_escapes :
  unshorten_url sample_head UrlParse.urlparse long_label_url s0
  = (Raise (OtherException "LocationParseError" "label empty or too long"),
     mkState [] [Head long_label_url])
  /\
  unshorten_url sample_head UrlParse.urlparse "http://badhost.invalid" s0
  = (Return "Error: Failed to resolve 'badhost.invalid'",
     mkState [] [Head "http://badhost.invalid"]).
Proof. split; vm_compute; reflexivity. Qed.

(** C10: the denylist check is string equality on the whole network
    location.  Whenever the request succeeds and the network location of
    the final URL is not one of the six strings, the final URL is
    returned; in particular with a www. prefix, with an explicit port, or
    in another letter case. *)
Theorem denylist_check_is_exact_on_netloc
    (requests_head : list event -> string -> py string)
    (urlparse : string -> py ParseResult)
    (url : string) (s : state) (final_url : string) (parsed_url : ParseResult) :
  requests_head (trace s) url = Return final_url ->
  urlparse final_url = Return parsed_url ->
  (~ In (netloc parsed_url) shortener_domains ->
     fst (unshorten_url requests_head urlparse url s) = Return final_url)
  /\
  (forall d port, In d shortener_domains ->
     netloc parsed_url = "www." ++ d \/
     netloc parsed_url = d ++ ":" ++ port \/
     (netloc parsed_url <> d /\ UrlParse.lower (netloc parsed_url) = d) ->
     fst (unshorten_url requests_head urlparse url s) = Return final_url).
Proof.
  intros Hh Hp.
  assert (Hout : ~ In (netloc parsed_url) shortener_domains ->
            fst (unshorten_url requests_head urlparse url s) = Return final_url).
  { intros Hnot. rewrite unshorten_url_value, Hh, Hp.
    apply py_in_not_In in Hnot. now rewrite Hnot. }
  split; [exact Hout | ].
  intros d port Hd [E | [E | [Hne Hlow]]]; apply Hout.
  - rewrite E. now apply www_prefix_not_shortener.
  - rewrite E. now apply with_port_not_shortener.
  - now apply (other_case_not_shortener _ d).
Qed.

(** www.bit.ly, bit.ly:80 and BIT.LY are all returned as resolved. *)
Lemma denylist_check_is_exact_on_netloc_witness :
  fst (unshorten_url sample_head UrlParse.urlparse "http://www.bit.ly/3xYz" s0)
  = Return "http://www.bit.ly/3xYz" /\
  fst (unshorten_url sample_head UrlParse.urlparse "http://bit.ly:80/3xYz" s0)
  = Return "http://bit.ly:80/3xYz" /\
  fst (unshorten_url sample_head UrlParse.urlparse "http://BIT.LY/3xYz" s0)
  = Return "http://BIT.LY/3xYz".
Proof.
  assert (Hbit : In "bit.ly" shortener_domains) by (simpl; auto).
  split; [ | split].
  - apply (proj2 (denylist_check_is_exact_on_netloc sample_head UrlParse.urlparse
                    "http://www.bit.ly/3xYz" s0 "http://www.bit.ly/3xYz"
                    (mkParseResult "www.bit.ly") eq_refl eq_refl)
             "bit.ly" "" Hbit).
    left; reflexivity.
  - apply (proj2 (denylist_check_is_exact_on_netloc sample_head UrlParse.urlparse
                    "http://bit.ly:80/3xYz" s0 "http://bit.ly:80/3xYz"
                    (mkParseResult "bit.ly:80") eq_refl eq_refl)
             "bit.ly" "80" Hbit).
    right; left; reflexivity.
  - apply (proj2 (denylist_check_is_exact_on_netloc sample_head UrlParse.urlparse
                    "http://BIT.LY/3xYz" s0 "http://BIT.LY/3xYz"
                    (mkParseResult "BIT.LY") eq_refl eq_refl)
             "bit.ly" "" Hbit).
    right; right. split; [discriminate | reflexivity].
Defined.

(** * The CSV transformer *)

Section Transformer.

Variable requests_head : list event -> string -> py string.
Variable urlparse : string -> py ParseResult.
Variable column_index : Z.

(** The first cell of a row that has just been extended exists. *)
Lemma py_getitem_0_app (r : row) (c : string) :
  py_getitem (r ++ [c])%list 0 = Return (hd c r).
Proof.
  unfold py_getitem. rewrite length_app. simpl length.
  replace (0 <? 0) with false by reflexivity.
  assert (H : (Z.of_nat (length r + 1) <=? 0) = false) by (apply Z.leb_gt; lia).
  rewrite H. simpl. destruct r; reflexivity.
Qed.

(** The [if]/[else] of the loop, by cases. *)
Lemma append_result_short (r : row) (lv : locals) (s : state) :
  Z.of_nat (length r) <= column_index ->
  append_result requests_head urlparse column_index r lv s
  = (Return ((r ++ ["Error: Column index out of range"])%list, lv), s).
Proof.
  intros H. unfold append_result.
  destruct (Z.gtb_spec (Z.of_nat (length r)) column_index); [lia | reflexivity].
Qed.

Lemma append_result_long (r : row) (lv : locals) (s : state) :
  column_index < Z.of_nat (length r) ->
  append_result requests_head urlparse column_index r lv s
  = match py_getitem r column_index with
    | Raise e => (Raise e, s)
    | Return su =>
        let s1 := mkState (output s) (trace s ++ [Head su]) in
        match fst (unshorten_url requests_head urlparse su s) with
        | Raise e => (Raise e, s1)
        | Return uu =>
            (Return ((r ++ [uu])%list, mkLocals (Some su) (Some uu)), s1)
        end
    end.
Proof.
  intros H. unfold append_result.
  destruct (Z.gtb_spec (Z.of_nat (length r)) column_index); [ | lia].
  unfold bind, lift, ret.
  destruct (py_getitem r column_index) as [su | e]; [ | reflexivity].
  pose proof (unshorten_url_state requests_head urlparse su s) as Hs.
  destruct (unshorten_url requests_head urlparse su s) as [[uu | e] s1];
    simpl in *; now subst.
Qed.

(** What follows the [if]/[else]: the row is written, then the
    progress line is formatted from [row[0]] and the two loop
    variables, and printed. *)
Lemma loop_body_after (r r' : row) (c : string) (lv lv' : locals) (s s1 : state) :
  append_result requests_head urlparse column_index r lv s
  = (Return ((r' ++ [c])%list, lv'), s1) ->
  loop_body requests_head urlparse column_index r lv s
  = let s2 := mkState (output s1 ++ [r' ++ [c]])%list (trace s1) in
    match shortened_url lv', unshortened_url lv' with
    | Some su, Some uu =>
        (Return lv',
         mkState (output s2)
                 (trace s2 ++ [Printed ("Processed: " ++ hd c r' ++ " - " ++ su
                                        ++ " -> " ++ uu)])%list)
    | None, _ => (Raise (UnboundLocalError "shortened_url"), s2)
    | Some _, None => (Raise (UnboundLocalError "unshortened_url"), s2)
    end.
Proof.
  intros H. unfold loop_body, bind at 1. rewrite H.
  unfold bind, writerow, lift, load_local, py_print, ret, raise. cbn [fst snd].
  rewrite py_getitem_0_app.
  destruct (shortened_url lv'), (unshortened_url lv'); reflexivity.
Qed.

Lemma loop_body_raise (r : row) (e : exception) (lv : locals) (s s1 : state) :
  append_result requests_head urlparse column_index r lv s = (Raise e, s1) ->
  loop_body requests_head urlparse column_index r lv s = (Raise e, s1).
Proof.
  intros H. unfold loop_body, bind at 1. now rewrite H.
Qed.

(** A row too short for the column: the row is written with the range
    error appended and no request is sent, whatever the progress line
    does afterwards. *)
Lemma loop_body_short (r : row) (lv : locals) (s : state) :
  Z.of_nat (length r) <= column_index ->
  let s' := snd (loop_body requests_head urlparse column_index r lv s) in
  output s' = (output s ++ [r ++ ["Error: Column index out of range"]])%list /\
  requests_of (trace s') = requests_of (trace s).
Proof.
  intros H.
  rewrite (loop_body_after r r _ lv lv s s (append_result_short r lv s H)).
  destruct (shortened_url lv), (unshortened_url lv); simpl; split;
    try reflexivity.
  unfold requests_of. rewrite flat_map_app. simpl. now rewrite app_nil_r.
Qed.

(** One iteration, in general: at most one row is written, the given
    row with one more cell; an iteration that completes is a
    [row_step]. *)
Lemma loop_body_spec (r : row) (lv : locals) (s : state) :
  let X := loop_body requests_head urlparse column_index r lv s in
  exists cells,
    (length cells <= 1)%nat /\
    output (snd X) = (output s ++ append_cells [r] cells)%list /\
    forall lv', fst X = Return lv' ->
      bound lv' /\ (bound lv -> Z.of_nat (length r) <= column_index -> lv' = lv) /\
      exists step, row_step column_index r step /\ cells = [fst step] /\
                   trace (snd X) = (trace s ++ snd step)%list.
Proof.
  destruct (Z_le_gt_dec (Z.of_nat (length r)) column_index) as [Hs | Hl].
  - rewrite (loop_body_after r r _ lv lv s s (append_result_short r lv s Hs)).
    exists ["Error: Column index out of range"].
    destruct (shortened_url lv) as [su | ] eqn:Esu;
      [destruct (unshortened_url lv) as [uu | ] eqn:Euu | ]; simpl;
      (split; [simpl; lia | split; [reflexivity | ]]); intros lv' E;
      try discriminate E.
    injection E as <-. split; [ | split; [reflexivity | ]].
    + unfold bound. rewrite Esu, Euu. split; discriminate.
    + eexists (_, _). split; [ | split; reflexivity].
      left. simpl. split; [assumption | split; [reflexivity | eauto]].
  - assert (Hl' : column_index < Z.of_nat (length r)) by lia.
    pose proof (append_result_long r lv s Hl') as Ha.
    destruct (py_getitem r column_index) as [su | e] eqn:Eg.
    + destruct (fst (unshorten_url requests_head urlparse su s)) as [uu | e].
      * rewrite (loop_body_after r r uu lv _ s _ Ha). simpl.
        exists [uu]. split; [simpl; lia | split; [reflexivity | ]].
        intros lv' E. injection E as <-. split; [ | split; [intros; lia | ]].
        -- unfold bound. simpl. split; discriminate.
        -- eexists (_, _). split; [ | split; [reflexivity | ]].
           ++ right. simpl. split; [assumption | eauto].
           ++ simpl. now rewrite <- app_assoc.
      * rewrite (loop_body_raise r e lv s _ Ha). simpl.
        exists []. split; [simpl; lia | split; [now rewrite app_nil_r | ]].
        intros lv' E. discriminate E.
    + rewrite (loop_body_raise r e lv s _ Ha). simpl.
      exists []. split; [simpl; lia | split; [now rewrite app_nil_r | ]].
      intros lv' E. discriminate E.
Qed.

(** The loop: the rows written are the rows read, in their order, each
    with one more cell, up to the row where an exception stopped it; a
    loop that completes has read a well-formed file to its end and is a
    sequence of [row_step]s, one after the other. *)
Lemma for_rows_spec (reader : csv_reader) :
  forall (lv : locals) (s : state),
  let X := for_rows requests_head urlparse column_index reader lv s in
  exists cells,
    (length cells <= length (rows_of reader))%nat /\
    output (snd X) = (output s ++ append_cells (rows_of reader) cells)%list /\
    (fst X = Return tt ->
       reader = reader_of (rows_of reader) /\
       exists steps,
         Forall2 (row_step column_index) (rows_of reader) steps /\
         cells = map fst steps /\
         trace (snd X) = (trace s ++ concat (map snd steps))%list).
Proof.
  induction reader as [ | r rest IH | e]; intros lv s; simpl.
  - exists []. split; [simpl; lia | split; [now rewrite app_nil_r | ]].
    intros _. split; [reflexivity | ].
    exists []. split; [constructor | split; [reflexivity | ]].
    simpl. now rewrite app_nil_r.
  - unfold bind.
    destruct (loop_body_spec r lv s) as [cells1 [Hlen1 [Hout1 Hret1]]].
    destruct (loop_body requests_head urlparse column_index r lv s)
      as [[lv' | e] s1]; simpl in *.
    + destruct (Hret1 lv' eq_refl) as [_ [_ [step [Hstep [Hc1 Ht1]]]]].
      destruct (IH lv' s1) as [cells2 [Hlen2 [Hout2 Hret2]]].
      exists (fst step :: cells2). split; [simpl; lia | split].
      * rewrite Hout2, Hout1, Hc1. unfold append_cells. simpl.
        now rewrite <- app_assoc.
      * intros E. destruct (Hret2 E) as [Hwf [steps [HF [Hc2 Ht2]]]].
        split; [congruence | ].
        exists (step :: steps). split; [now constructor | split].
        -- simpl. congruence.
        -- rewrite Ht2, Ht1. simpl. now rewrite <- app_assoc.
    + exists cells1. split; [simpl; lia | split].
      * rewrite Hout1. f_equal. unfold append_cells.
        destruct cells1 as [ | c [ | c' cells1]]; simpl in *.
        -- reflexivity.
        -- now rewrite combine_nil.
        -- lia.
      * intros E. discriminate E.
  - exists []. split; [simpl; lia | split; [now rewrite app_nil_r | ]].
    intros E. discriminate E.
Qed.

(** With a header row the transformation is the loop, started on a
    buffer that holds the extended header. *)
Lemma process_csv_header (header : row) (reader : csv_reader) (s : state) :
  process_csv requests_head urlparse (Yield header reader) column_index s
  = match for_rows requests_head urlparse column_index reader no_locals
            (mkState [(header ++ ["Unshortened URL"])%list] (trace s)) with
    | (Return _, s') => (Return (output s'), s')
    | (Raise e, s') => (Raise e, s')
    end.
Proof. reflexivity. Qed.

(** The whole transformation of a file with a header row. *)
Lemma process_csv_spec (header : row) (reader : csv_reader) (s : state) :
  let X := process_csv requests_head urlparse (Yield header reader)
                       column_index s in
  exists cells,
    (length cells <= length (rows_of reader))%nat /\
    output (snd X)
    = (header ++ ["Unshortened URL"])%list :: append_cells (rows_of reader) cells /\
    forall out, fst X = Return out ->
      out = output (snd X) /\
      reader = reader_of (rows_of reader) /\
      exists steps,
        Forall2 (row_step column_index) (rows_of reader) steps /\
        cells = map fst steps /\
        trace (snd X) = (trace s ++ concat (map snd steps))%list.
Proof.
  rewrite process_csv_header.
  set (s1 := mkState _ _).
  destruct (for_rows_spec reader no_locals s1) as [cells [Hlen [Hout Hret]]].
  destruct (for_rows requests_head urlparse column_index reader no_locals s1)
    as [[[] | e] s2]; simpl in *.
  - exists cells. split; [assumption | split; [assumption | ]].
    intros out E. injection E as <-. split; [reflexivity | ].
    exact (Hret eq_refl).
  - exists cells. split; [assumption | split; [assumption | ]].
    intros out E. discriminate E.
Qed.

(** An index inside the list reads a cell. *)
Lemma py_getitem_in_range {A} (l : list A) (i : Z) :
  0 <= i < Z.of_nat (length l) -> exists a, py_getitem l i = Return a.
Proof.
  intros [H0 H1]. unfold py_getitem. cbv zeta.
  assert (E0 : (i <? 0) = false) by (apply Z.ltb_ge; lia).
  assert (E1 : (Z.of_nat (length l) <=? i) = false) by (apply Z.leb_gt; lia).
  rewrite !E0, E1. simpl.
  destruct (nth_error l (Z.to_nat i)) eqn:E; [eexists; reflexivity | ].
  apply nth_error_None in E. lia.
Qed.

(** When the libraries raise request exceptions only and the column
    index is not negative, an iteration completes unless it meets a
    row too short while the loop variables are still unbound. *)
Lemma loop_body_returns (r : row) (lv : locals) (s : state) :
  only_request_exceptions requests_head urlparse ->
  0 <= column_index ->
  bound lv \/ column_index < Z.of_nat (length r) ->
  exists lv' s',
    loop_body requests_head urlparse column_index r lv s = (Return lv', s') /\
    bound lv'.
Proof.
  intros [Hrh Hup] Hci Hok.
  destruct (Z_le_gt_dec (Z.of_nat (length r)) column_index) as [Hs | Hl].
  - destruct Hok as [[Hb1 Hb2] | Hlong]; [ | lia].
    rewrite (loop_body_after r r _ lv lv s s (append_result_short r lv s Hs)).
    destruct (shortened_url lv) eqn:E1; [ | congruence].
    destruct (unshortened_url lv) eqn:E2; [ | congruence].
    simpl. do 2 eexists. split; [reflexivity | ].
    unfold bound. rewrite E1, E2. split; discriminate.
  - assert (Hl' : column_index < Z.of_nat (length r)) by lia.
    pose proof (append_result_long r lv s Hl') as Ha.
    destruct (py_getitem_in_range r column_index (conj Hci Hl')) as [su Eg].
    rewrite Eg in Ha.
    assert (Hu : exists uu,
               fst (unshorten_url requests_head urlparse su s) = Return uu).
    { rewrite unshorten_url_value.
      destruct (requests_head (trace s) su) as [final | e] eqn:Eh.
      - destruct (urlparse final) as [p | e] eqn:Ep.
        + destruct (py_in (netloc p) shortener_domains); eauto.
        + destruct (Hup _ _ Ep) as [d ->]. eauto.
      - destruct (Hrh _ _ _ Eh) as [d ->]. eauto. }
    destruct Hu as [uu Hu]. rewrite Hu in Ha.
    rewrite (loop_body_after r r uu lv _ s _ Ha). simpl.
    do 2 eexists. split; [reflexivity | ].
    unfold bound. simpl. split; discriminate.
Qed.

Lemma for_rows_returns (rows : list row) :
  only_request_exceptions requests_head urlparse ->
  0 <= column_index ->
  forall (lv : locals) (s : state),
    bound lv \/ (exists r rows', rows = r :: rows' /\
                                 column_index < Z.of_nat (length r)) \/ rows = [] ->
    exists s',
      for_rows requests_head urlparse column_index (reader_of rows) lv s
      = (Return tt, s').
Proof.
  intros Henv Hci.
  induction rows as [ | r rows IH]; intros lv s Hok; simpl.
  - eexists. reflexivity.
  - assert (Hr : bound lv \/ column_index < Z.of_nat (length r)).
    { destruct Hok as [Hb | [[r0 [rows0 [E Hlong]]] | E]];
        [now left | injection E as -> ->; now right | discriminate E]. }
    destruct (loop_body_returns r lv s Henv Hci Hr) as [lv' [s1 [Hbody Hb']]].
    unfold bind. rewrite Hbody.
    apply IH. now left.
Qed.

(** The transformation completes on every well-formed file whose first
    data row, if any, reaches the column. *)
Lemma process_csv_returns (header : row) (rows : list row) (s : state) :
  only_request_exceptions requests_head urlparse ->
  0 <= column_index ->
  (exists r rows', rows = r :: rows' /\ column_index < Z.of_nat (length r))
  \/ rows = [] ->
  exists out,
    fst (process_csv requests_head urlparse (reader_of (header :: rows))
                     column_index s) = Return out.
Proof.
  intros Henv Hci Hok.
  simpl reader_of. rewrite process_csv_header.
  destruct (for_rows_returns rows Henv Hci no_locals
              (mkState [(header ++ ["Unshortened URL"])%list] (trace s))
              (or_intror Hok)) as [s' E].
  rewrite E. simpl. eauto.
Qed.

(** A first data row too short for the column stops the transformation
    at its progress line: the loop variables it prints were never
    bound.  The row itself has been written by then. *)
Lemma process_csv_short_first_row
    (header r : row) (rest : csv_reader) (s : state) :
  Z.of_nat (length r) <= column_index ->
  process_csv requests_head urlparse (Yield header (Yield r rest))
              column_index s
  = (Raise (UnboundLocalError "shortened_url"),
     mkState [(header ++ ["Unshortened URL"])%list;
              (r ++ ["Error: Column index out of range"])%list]
             (trace s)).
Proof.
  intros H.
  rewrite process_csv_header. cbn [for_rows]. unfold bind.
  rewrite (loop_body_after r r _ no_locals no_locals _ _
             (append_result_short r no_locals _ H)).
  reflexivity.
Qed.

(** Cells appended to rows, read back row by row. *)
Lemma append_cells_Forall2 (rows : list row) :
  forall cells, length cells = length rows ->
    Forall2 (fun r o => exists c, o = (r ++ [c])%list)
            rows (append_cells rows cells).
Proof.
  unfold append_cells.
  induction rows as [ | r rows IH]; intros [ | c cells] Hlen; simpl in *;
    try discriminate Hlen; constructor.
  - now exists c.
  - apply IH. now injection Hlen.
Qed.

Lemma nth_error_append_cells (rows : list row) :
  forall cells i r c,
    nth_error rows i = Some r -> nth_error cells i = Some c ->
    nth_error (append_cells rows cells) i = Some (r ++ [c])%list.
Proof.
  unfold append_cells.
  induction rows as [ | r0 rows IH]; intros [ | c0 cells] [ | i] r c Hr Hc;
    simpl in *; try discriminate.
  - now injection Hr as ->; injection Hc as ->.
  - now apply IH.
Qed.

Lemma Forall2_nth_error {A B} (P : A -> B -> Prop) (l : list A) :
  forall (l' : list B) i a,
    Forall2 P l l' -> nth_error l i = Some a ->
    exists b, nth_error l' i = Some b /\ P a b.
Proof.
  induction l as [ | x l IH]; intros l' [ | i] a HF Ha; simpl in *;
    try discriminate; inversion HF; subst.
  - injection Ha as ->. eexists. split; [reflexivity | assumption].
  - now apply IH.
Qed.

Lemma process_csv_no_header (s : state) :
  process_csv requests_head urlparse Exhausted column_index s
  = (Raise StopIteration, mkState [] (trace s)).
Proof. reflexivity. Qed.

Lemma process_csv_reader_fails (e : exception) (s : state) :
  process_csv requests_head urlparse (Fails e) column_index s
  = (Raise e, mkState [] (trace s)).
Proof. reflexivity. Qed.

(** A transformation that completes has read a header and after it one
    [row_step] per data row. *)
Lemma process_csv_completed (file : csv_reader) (s : state) (out : list row) :
  fst (process_csv requests_head urlparse file column_index s) = Return out ->
  exists header rows steps,
    file = reader_of (header :: rows) /\
    Forall2 (row_step column_index) rows steps /\
    out = (header ++ ["Unshortened URL"])%list
          :: append_cells rows (map fst steps) /\
    trace (snd (process_csv requests_head urlparse file column_index s))
    = (trace s ++ concat (map snd steps))%list.
Proof.
  intros H. destruct file as [ | header reader | e].
  - rewrite process_csv_no_header in H. discriminate H.
  - destruct (process_csv_spec header reader s) as [cells [_ [Hout Hret]]].
    destruct (Hret out H) as [-> [Hwf [steps [HF [-> Ht]]]]].
    exists header, (rows_of reader), steps.
    simpl reader_of. rewrite <- Hwf. now repeat split.
  - rewrite process_csv_reader_fails in H. discriminate H.
Qed.

Lemma rows_of_reader_of (rows : list row) : rows_of (reader_of rows) = rows.
Proof. induction rows; simpl; congruence. Qed.

End Transformer.

(** ** Claims about [process_csv] *)

(** C1: whenever the transformation completes, the output has as many
    rows as the input (header included, hence as many data rows), and
    every output row is longer than its input row by exactly one cell. *)
Theorem process_csv_column_invariant
    (requests_head : list event -> string -> py string)
    (urlparse : string -> py ParseResult)
    (file_content : csv_reader) (column_index : Z) (s : state)
    (out : list row) :
  fst (process_csv requests_head urlparse file_content column_index s)
  = Return out ->
  file_content = reader_of (rows_of file_content) /\
  length out = length (rows_of file_content) /\
  length (tl out) = length (tl (rows_of file_content)) /\
  forall i r o,
    nth_error (rows_of file_content) i = Some r ->
    nth_error out i = Some o ->
    length o = (length r + 1)%nat.
Proof.
  intros H.
  destruct (process_csv_completed _ _ _ _ _ _ H)
    as [header [rows [steps [-> [HF [-> _]]]]]].
  rewrite rows_of_reader_of.
  assert (Hlen : length (map fst steps) = length rows).
  { rewrite length_map. symmetry. exact (Forall2_length HF). }
  pose proof (append_cells_Forall2 rows (map fst steps) Hlen) as HA.
  pose proof (Forall2_length HA) as HL.
  split; [reflexivity | split; [ | split]].
  - cbn [length]. f_equal. symmetry. exact HL.
  - cbn [tl]. symmetry. exact HL.
  - 
intros [ | i] r o Hr Ho; cbn [nth_error] in Hr, Ho.
    + injection Hr as <-. injection Ho as <-. now rewrite length_app.
    + destruct (Forall2_nth_error _ _ _ _ _ HA Hr) as [o' [Ho' [c ->]]].
      pose proof (eq_trans (eq_sym Ho') Ho) as E. injection E as <-.
      now rewrite length_app.
Qed.

(** The sample file is transformed row for row. *)
Lemma process_csv_column_invariant_witness :
  fst (process_csv sample_head UrlParse.urlparse (reader_of sample_rows) 1 s0)
  = Return sample_out /\
  length sample_out = length sample_rows /\
  forall i r o,
    nth_error sample_rows i = Some r ->
    nth_error sample_out i = Some o ->
    length o = (length r + 1)%nat.
Proof.
  assert (Hrun : fst (process_csv sample_head UrlParse.urlparse
                        (reader_of sample_rows) 1 s0) = Return sample_out)
    by (vm_compute; reflexivity).
  destruct (process_csv_column_invariant sample_head UrlParse.urlparse
              (reader_of sample_rows) 1 s0 sample_out Hrun)
    as [_ [Hlen [_ Hrows]]].
  split; [exact Hrun | split; [exact Hlen | exact Hrows]].
Defined.

(** C9: on empty input there is no header row; [process_csv] raises
    StopIteration to its caller, returns no document, and has written
    nothing. *)
Theorem process_csv_empty_input
    (requests_head : list event -> string -> py string)
    (urlparse : string -> py ParseResult)
    (column_index : Z) (s : state) :
  process_csv requests_head urlparse Exhausted column_index s
  = (Raise StopIteration, mkState [] (trace s)).
Proof. reflexivity. Qed.

(** C5: the first row written is the input header followed by the
    column name "Unshortened URL", whatever the header holds and
    whatever happens to the rows after it; it is the first row of the
    document returned. *)
Theorem process_csv_header_augmented
    (requests_head : list event -> string -> py string)
    (urlparse : string -> py ParseResult)
    (header : row) (reader : csv_reader) (column_index : Z) (s : state) :
  let X := process_csv requests_head urlparse (Yield header reader)
                       column_index s in
  hd_error (output (snd X)) = Some (header ++ ["Unshortened URL"])%list /\
  match fst X with
  | Return out => hd_error out = Some (header ++ ["Unshortened URL"])%list
  | Raise _ => True
  end.
Proof.
  destruct (process_csv_spec requests_head urlparse column_index header reader s)
    as [cells [_ [Hout Hret]]].
  simpl. rewrite Hout. split; [reflexivity | ].
  destruct (fst (process_csv requests_head urlparse (Yield header reader)
                   column_index s)) as [out | e] eqn:E; [ | exact I].
  destruct (Hret out eq_refl) as [-> _]. now rewrite Hout.
Qed.

(** C2 does not hold on this input: the first data row has one cell and
    the column index is 1.  The row is written with its error cell, then
    the progress line reads loop variables that no earlier row has
    bound; [process_csv] raises UnboundLocalError, the second data row
    is never handled and no output is returned. *)
Theorem process_csv_stops_at_short_first_row :
  process_csv sample_head UrlParse.urlparse (reader_of short_first_rows) 1 s0
  = (Raise (UnboundLocalError "shortened_url"),
     mkState [ ["id"; "url"; "Unshortened URL"];
               ["1"; "Error: Column index out of range"] ]
             []).
Proof. vm_compute. reflexivity. Qed.


(** * Further properties of the resolver and the transformer *)

(** X1: whatever [unshorten_url] returns is either a string that begins
    with "Error: " or exactly the URL of the final response, unchanged,
    whose network location is not on the denylist. *)
Theorem unshorten_url_result_is_error_or_final_url
    (requests_head : list event -> string -> py string)
    (urlparse : string -> py ParseResult)
    (url : string) (s : state) (result : string) :
  fst (unshorten_url requests_head urlparse url s) = Return result ->
  (exists d, result = "Error: " ++ d) \/
  (requests_head (trace s) url = Return result /\
   exists parsed_url, urlparse result = Return parsed_url /\
                      ~ In (netloc parsed_url) shortener_domains).
Proof.
  rewrite unshorten_url_value.
  destruct (requests_head (trace s) url) as [final | e].
  - destruct (urlparse final) as [p | e] eqn:Ep.
    + destruct (py_in (netloc p) shortener_domains) eqn:Ein; intros H;
        injection H as <-.
      * left. now exists "Still on shortener domain".
      * right. split; [reflexivity | ]. exists p. split; [assumption | ].
        now apply py_in_not_In.
    + destruct e; intros H; try discriminate H. injection H as <-. left.
      eexists. reflexivity.
  - destruct e; intros H; try discriminate H. injection H as <-. left.
    eexists. reflexivity.
Qed.

(** The three kinds of result on the sample resolver. *)
Lemma unshorten_url_result_is_error_or_final_url_witness :
  ((exists d, "https://example.com/final" = "Error: " ++ d) \/
   (sample_head (trace s0) "http://short.example/a"
    = Return "https://example.com/final" /\
    exists parsed_url,
      UrlParse.urlparse "https://example.com/final" = Return parsed_url /\
      ~ In (netloc parsed_url) shortener_domains)) /\
  ((exists d, "Error: Still on shortener domain" = "Error: " ++ d) \/
   (sample_head (trace s0) "http://bit.ly/3xYz"
    = Return "Error: Still on shortener domain" /\
    exists parsed_url,
      UrlParse.urlparse "Error: Still on shortener domain" = Return parsed_url /\
      ~ In (netloc parsed_url) shortener_domains)).
Proof.
  split.
  - apply (unshorten_url_result_is_error_or_final_url sample_head
             UrlParse.urlparse "http://short.example/a" s0).
    reflexivity.
  - apply (unshorten_url_result_is_error_or_final_url sample_head
             UrlParse.urlparse "http://bit.ly/3xYz" s0).
    reflexivity.
Defined.

(** The requests of a sequence of completed iterations. *)
Lemma requests_of_app (t t' : list event) :
  requests_of (t ++ t') = (requests_of t ++ requests_of t')%list.
Proof. unfold requests_of. apply flat_map_app. Qed.

Lemma requests_of_steps (column_index : Z) (rows : list row) :
  forall steps,
    Forall2 (row_step column_index) rows steps ->
    requests_of (concat (map snd steps)) = flat_map (requested column_index) rows.
Proof.
  induction rows as [ | r rows IH]; intros steps HF; inversion HF; subst;
    [reflexivity | ].
  simpl. rewrite requests_of_app. f_equal; [ | now apply IH].
  unfold requested.
  match goal with H : row_step _ _ _ |- _ => destruct H as [Hs | Hl] end.
  - destruct Hs as [Hlen [_ [line ->]]].
    destruct (Z.gtb_spec (Z.of_nat (length r)) column_index); [lia | reflexivity].
  - destruct Hl as [Hlen [u [line [Hu ->]]]].
    destruct (Z.gtb_spec (Z.of_nat (length r)) column_index); [ | lia].
    now rewrite Hu.
Qed.

(** X2: in a run that completes, the HEAD requests sent are exactly the
    cells at the column index of the data rows long enough to have one,
    in file order: one request per such row, none for the header and
    none for a shorter row. *)
Theorem process_csv_requests_one_per_row_in_order
    (requests_head : list event -> string -> py string)
    (urlparse : string -> py ParseResult)
    (file_content : csv_reader) (column_index : Z) (s : state)
    (out : list row) :
  fst (process_csv requests_head urlparse file_content column_index s)
  = Return out ->
  requests_of
    (trace (snd (process_csv requests_head urlparse file_content column_index s)))
  = (requests_of (trace s)
     ++ flat_map (requested column_index) (tl (rows_of file_content)))%list.
Proof.
  intros H.
  destruct (process_csv_completed _ _ _ _ _ _ H)
    as [header [rows [steps [-> [HF [_ Ht]]]]]].
  rewrite Ht, requests_of_app, rows_of_reader_of. cbn [tl].
  f_equal. now apply requests_of_steps.
Qed.

(** On the sample file the three rows with a URL are requested, in
    order. *)
Lemma process_csv_requests_one_per_row_in_order_witness :
  requests_of
    (trace (snd (process_csv sample_head UrlParse.urlparse
                   (reader_of sample_rows) 1 s0)))
  = ["http://short.example/a"; "http://badhost.invalid"; "http://bit.ly/3xYz"].
Proof.
  exact (process_csv_requests_one_per_row_in_order sample_head UrlParse.urlparse
           (reader_of sample_rows) 1 s0 sample_out eq_refl).
Defined.

Section Completion.

Variable requests_head : list event -> string -> py string.
Variable urlparse : string -> py ParseResult.
Variable column_index : Z.
Hypothesis column_index_nonneg : 0 <= column_index.

(** An iteration completes when the URL of its row is resolvable, unless
    the row is too short while the loop variables are still unbound. *)
Lemma loop_body_completes (r : row) (lv : locals) (s : state) :
  resolvable requests_head urlparse (requested column_index r) ->
  bound lv \/ column_index < Z.of_nat (length r) ->
  exists lv' s' c,
    loop_body requests_head urlparse column_index r lv s = (Return lv', s') /\
    bound lv' /\ output s' = (output s ++ [r ++ [c]])%list.
Proof.
  intros Hres Hok.
  destruct (Z_le_gt_dec (Z.of_nat (length r)) column_index) as [Hs | Hl].
  - destruct Hok as [[Hb1 Hb2] | Hlong]; [ | lia].
    rewrite (loop_body_after _ _ _ r r _ lv lv s s
               (append_result_short _ _ _ r lv s Hs)).
    destruct (shortened_url lv) eqn:E1; [ | congruence].
    destruct (unshortened_url lv) eqn:E2; [ | congruence].
    simpl. do 3 eexists. split; [reflexivity | split; [ | reflexivity]].
    unfold bound. rewrite E1, E2. split; discriminate.
  - assert (Hl' : column_index < Z.of_nat (length r)) by lia.
    pose proof (append_result_long requests_head urlparse _ r lv s Hl') as Ha.
    destruct (py_getitem_in_range r column_index (conj column_index_nonneg Hl'))
      as [su Eg].
    rewrite Eg in Ha.
    destruct (Hres su s) as [uu Hu].
    { unfold requested.
      destruct (Z.gtb_spec (Z.of_nat (length r)) column_index); [ | lia].
      rewrite Eg. now left. }
    rewrite Hu in Ha.
    rewrite (loop_body_after _ _ _ r r uu lv _ s _ Ha). simpl.
    do 3 eexists. split; [reflexivity | split; [ | reflexivity]].
    unfold bound. simpl. split; discriminate.
Qed.

(** The loop runs through every row and ends as the reader ends. *)
Lemma for_rows_runs_through (reader : csv_reader) :
  forall (lv : locals) (s : state),
    resolvable requests_head urlparse
               (flat_map (requested column_index) (rows_of reader)) ->
    bound lv \/ rows_of reader = [] \/
    (exists r rows', rows_of reader = r :: rows' /\
                     column_index < Z.of_nat (length r)) ->
    exists s',
      for_rows requests_head urlparse column_index reader lv s
      = (match reader_end reader with
         | None => Return tt
         | Some e => Raise e
         end, s') /\
      length (output s') = (length (output s) + length (rows_of reader))%nat.
Proof.
  induction reader as [ | r rest IH | e]; intros lv s Hres Hok; simpl.
  - eexists. split; [reflexivity | lia].
  - assert (Hr : bound lv \/ column_index < Z.of_nat (length r)).
    { simpl in Hok. destruct Hok as [Hb | [E | [r0 [rows0 [E Hlong]]]]];
        [now left | discriminate E | injection E as <- <-; now right]. }
    assert (Hres1 : resolvable requests_head urlparse (requested column_index r)).
    { intros u s1 Hu. apply Hres. simpl. apply in_or_app. now left. }
    assert (Hres2 : resolvable requests_head urlparse
                      (flat_map (requested column_index) (rows_of rest))).
    { intros u s1 Hu. apply Hres. simpl. apply in_or_app. now right. }
    destruct (loop_body_completes r lv s Hres1 Hr)
      as [lv' [s1 [c [Hbody [Hb' Hout1]]]]].
    unfold bind. rewrite Hbody.
    destruct (IH lv' s1 Hres2 (or_introl Hb')) as [s' [Hrun Hlen]].
    exists s'. split; [exact Hrun | ].
    rewrite Hlen, Hout1, length_app. simpl. lia.
  - eexists. split; [reflexivity | simpl; lia].
Qed.

End Completion.

(** X3: for a well-formed file, a column index that is not negative and
    URLs on which [unshorten_url] returns, [process_csv] returns a
    document exactly when there is no data row or the first data row
    reaches the column.  Rows too short further down do no harm. *)
Theorem process_csv_returns_iff_first_row_reaches_column
    (requests_head : list event -> string -> py string)
    (urlparse : string -> py ParseResult)
    (header : row) (rows : list row) (column_index : Z) (s : state) :
  0 <= column_index ->
  resolvable requests_head urlparse (flat_map (requested column_index) rows) ->
  (exists out,
     fst (process_csv requests_head urlparse (reader_of (header :: rows))
                      column_index s) = Return out)
  <->
  (rows = [] \/
   exists r rows', rows = r :: rows' /\ column_index < Z.of_nat (length r)).
Proof.
  intros Hci Hres. split.
  - intros [out Hout]. destruct rows as [ | r rows']; [now left | right].
    exists r, rows'. split; [reflexivity | ].
    destruct (Z_lt_le_dec column_index (Z.of_nat (length r))) as [Hl | Hs];
      [assumption | ].
    simpl reader_of in Hout.
    rewrite (process_csv_short_first_row requests_head urlparse column_index
               header r (reader_of rows') s Hs) in Hout.
    discriminate Hout.
  - intros Hok. simpl reader_of. rewrite process_csv_header.
    destruct (for_rows_runs_through requests_head urlparse column_index Hci
                (reader_of rows) no_locals
                (mkState [(header ++ ["Unshortened URL"])%list] (trace s)))
      as [s' [Hrun _]].
    + now rewrite rows_of_reader_of.
    + right. now rewrite rows_of_reader_of.
    + rewrite Hrun.
      assert (E : reader_end (reader_of rows) = None)
        by (clear; induction rows; simpl; auto).
      rewrite E. simpl. eauto.
Qed.

(** The URLs of the sample file resolve on the sample resolver. *)
Lemma sample_rows_resolvable :
  resolvable sample_head UrlParse.urlparse
             (flat_map (requested 1) (tl sample_rows)).
Proof.
  intros u s Hu. simpl in Hu.
  destruct Hu as [<- | [<- | [<- | []]]]; rewrite unshorten_url_value;
    eexists; reflexivity.
Qed.

(** The sample file completes, its first data row having two cells. *)
Lemma process_csv_returns_iff_first_row_reaches_column_witness :
  exists out,
    fst (process_csv sample_head UrlParse.urlparse (reader_of sample_rows) 1 s0)
    = Return out.
Proof.
  apply (proj2 (process_csv_returns_iff_first_row_reaches_column
                  sample_head UrlParse.urlparse
                  ["id"; "url"] (tl sample_rows) 1 s0
                  ltac:(lia) sample_rows_resolvable)).
  right. do 2 eexists. split; [reflexivity | simpl; lia].
Defined.





Section RowByRow.

Variable requests_head : list event -> string -> py string.
Variable urlparse : string -> py ParseResult.
Variable column_index : Z.
Hypothesis requests_head_history_free : history_free requests_head.

(** The answer of a history-free resolver does not depend on the state. *)
Lemma unshorten_url_history_free (url : string) (s s' : state) :
  fst (unshorten_url requests_head urlparse url s)
  = fst (unshorten_url requests_head urlparse url s').
Proof.
  rewrite !unshorten_url_value.
  now rewrite (requests_head_history_free (trace s) (trace s') url).
Qed.

(** A completed iteration writes the transformed row. *)
Lemma loop_body_transform (r : row) (lv lv' : locals) (s s' : state) :
  loop_body requests_head urlparse column_index r lv s = (Return lv', s') ->
  exists o, transform_row requests_head urlparse column_index r = Return o /\
            output s' = (output s ++ [o])%list.
Proof.
  unfold transform_row.
  destruct (Z.gtb_spec (Z.of_nat (length r)) column_index) as [Hl | Hs].
  - pose proof (append_result_long requests_head urlparse _ r lv s Hl) as Ha.
    destruct (py_getitem r column_index) as [su | e].
    + rewrite (unshorten_url_history_free su s0 s).
      destruct (fst (unshorten_url requests_head urlparse su s)) as [uu | e].
      * rewrite (loop_body_after _ _ _ r r uu lv _ s _ Ha). simpl.
        intros H. injection H as <- <-. eexists. split; reflexivity.
      * rewrite (loop_body_raise _ _ _ r e lv s _ Ha). discriminate.
    + rewrite (loop_body_raise _ _ _ r e lv s _ Ha). discriminate.
  - rewrite (loop_body_after _ _ _ r r _ lv lv s s
               (append_result_short _ _ _ r lv s Hs)).
    destruct (shortened_url lv); [destruct (unshortened_url lv) | ]; simpl;
      intros H; try discriminate H.
    injection H as <- <-. eexists. split; reflexivity.
Qed.

(** A completed loop writes the transformed rows, in order. *)
Lemma for_rows_transform (reader : csv_reader) :
  forall (lv : locals) (s s' : state),
    for_rows requests_head urlparse column_index reader lv s = (Return tt, s') ->
    exists outs,
      Forall2 (fun r o => transform_row requests_head urlparse column_index r
                          = Return o) (rows_of reader) outs /\
      output s' = (output s ++ outs)%list.
Proof.
  induction reader as [ | r rest IH | e]; intros lv s s' H; simpl in H.
  - injection H as <-. exists []. split; [constructor | now rewrite app_nil_r].
  - unfold bind in H.
    destruct (loop_body requests_head urlparse column_index r lv s)
      as [[lv1 | e] s1] eqn:Hbody; [ | discriminate H].
    destruct (loop_body_transform r lv lv1 s s1 Hbody) as [o [Ho Hout1]].
    destruct (IH lv1 s1 s' H) as [outs [HF Hout]].
    exists (o :: outs). split; [now constructor | ].
    rewrite Hout, Hout1, <- app_assoc. reflexivity.
  - discriminate H.
Qed.

End RowByRow.

(** X5: with a resolver whose answers do not depend on what happened
    before, a run that completes returns the header with "Unshortened
    URL" appended, followed by the image of each data row under
    [transform_row], row by row: the loop computes a map over the rows. *)
Theorem process_csv_is_a_row_by_row_map
    (requests_head : list event -> string -> py string)
    (urlparse : string -> py ParseResult)
    (file_content : csv_reader) (column_index : Z) (s : state)
    (out : list row) :
  history_free requests_head ->
  fst (process_csv requests_head urlparse file_content column_index s)
  = Return out ->
  exists header rows outs,
    file_content = reader_of (header :: rows) /\
    out = (header ++ ["Unshortened URL"])%list :: outs /\
    Forall2 (fun r o => transform_row requests_head urlparse column_index r
                        = Return o) rows outs.
Proof.
  intros Hfree H.
  destruct (process_csv_completed _ _ _ _ _ _ H)
    as [header [rows [steps [-> _]]]].
  simpl reader_of in H. rewrite process_csv_header in H.
  destruct (for_rows requests_head urlparse column_index (reader_of rows)
              no_locals
              (mkState [(header ++ ["Unshortened URL"])%list] (trace s)))
    as [[[] | e] s'] eqn:Hrun; [ | discriminate H].
  destruct (for_rows_transform requests_head urlparse column_index Hfree
              _ _ _ _ Hrun) as [outs [HF Hout]].
  simpl in H. injection H as <-.
  exists header, rows, outs. rewrite rows_of_reader_of in HF.
  split; [reflexivity | split; [exact Hout | exact HF]].
Qed.

(** The sample resolver ignores the history, and the sample output is
    the sample file mapped row by row. *)
Lemma process_csv_is_a_row_by_row_map_witness :
  exists header rows outs,
    reader_of sample_rows = reader_of (header :: rows) /\
    sample_out = (header ++ ["Unshortened URL"])%list :: outs /\
    Forall2 (fun r o => transform_row sample_head UrlParse.urlparse 1 r
                        = Return o) rows outs.
Proof.
  apply (process_csv_is_a_row_by_row_map sample_head UrlParse.urlparse
           (reader_of sample_rows) 1 s0 sample_out).
  - intros t t' url. reflexivity.
  - reflexivity.
Defined.

(** X6: the guard [len(row) > column_index] does not stop a negative
    index.  When the first data row has fewer cells than the index
    counts back from the end (a blank line, for one), [row[column_index]]
    raises IndexError, which nothing catches: [process_csv] stops with
    only the header written and no request sent. *)
Theorem process_csv_negative_index_raises_IndexError
    (requests_head : list event -> string -> py string)
    (urlparse : string -> py ParseResult)
    (header r : row) (rest : csv_reader) (column_index : Z) (s : state) :
  column_index < 0 ->
  Z.of_nat (length r) < - column_index ->
  process_csv requests_head urlparse (Yield header (Yield r rest))
              column_index s
  = (Raise IndexError,
     mkState [(header ++ ["Unshortened URL"])%list] (trace s)).
Proof.
  intros Hneg Hlen.
  rewrite process_csv_header. cbn [for_rows]. unfold bind.
  assert (Hl : column_index < Z.of_nat (length r)) by lia.
  pose proof (append_result_long requests_head urlparse column_index r
                no_locals
                (mkState [(header ++ ["Unshortened URL"])%list] (trace s)) Hl)
    as Ha.
  assert (Hg : py_getitem r column_index = Raise IndexError).
  { unfold py_getitem. cbv zeta.
    assert (E0 : (column_index <? 0) = true) by (apply Z.ltb_lt; lia).
    assert (E1 : (column_index + Z.of_nat (length r) <? 0) = true)
      by (apply Z.ltb_lt; lia).
    now rewrite E0, E1. }
  rewrite Hg in Ha.
  now rewrite (loop_body_raise _ _ _ r _ _ _ _ Ha).
Qed.

(** A blank line right after the header, with index -1. *)
Lemma process_csv_negative_index_raises_IndexError_witness :
  process_csv sample_head UrlParse.urlparse
              (reader_of [["id"; "url"]; []; ["1"; "http://short.example/a"]])
              (-1) s0
  = (Raise IndexError, mkState [["id"; "url"; "Unshortened URL"]] []).
Proof.
  apply (process_csv_negative_index_raises_IndexError
           sample_head UrlParse.urlparse ["id"; "url"] []
           (reader_of [["1"; "http://short.example/a"]]) (-1) s0);
    simpl; lia.
Defined.

(** X7: the progress line of a row too short for the column repeats the
    URL and the result of the last row that reached the column, and
    shows as first field the first cell of the extended row, which for a
    blank line is the error cell itself.  The loop variables stay as
    they were. *)
Theorem progress_line_of_short_row_is_stale
    (requests_head : list event -> string -> py string)
    (urlparse : string -> py ParseResult)
    (column_index : Z) (r : row) (su uu : string) (s : state) :
  Z.of_nat (length r) <= column_index ->
  loop_body requests_head urlparse column_index r
            (mkLocals (Some su) (Some uu)) s
  = (Return (mkLocals (Some su) (Some uu)),
     mkState (output s ++ [r ++ ["Error: Column index out of range"]])%list
             (trace s ++
              [Printed ("Processed: "
                          ++ hd "Error: Column index out of range" r
                          ++ " - " ++ su ++ " -> " ++ uu)])%list).
Proof.
  intros Hs.
  now rewrite (loop_body_after _ _ _ r r _ _ _ s s
                 (append_result_short _ _ _ r _ s Hs)).
Qed.

(** Row 2 of the sample file is logged with the URL of row 1. *)
Lemma progress_line_of_short_row_is_stale_witness :
  loop_body sample_head UrlParse.urlparse 1 ["2"]
            (mkLocals (Some "http://short.example/a")
                      (Some "https://example.com/final")) s0
  = (Return (mkLocals (Some "http://short.example/a")
                      (Some "https://example.com/final")),
     mkState [["2"; "Error: Column index out of range"]]
             [Printed "Processed: 2 - http://short.example/a -> https://example.com/final"]).
Proof.
  apply (progress_line_of_short_row_is_stale sample_head UrlParse.urlparse
           1 ["2"] "http://short.example/a" "https://example.com/final" s0).
  simpl; lia.
Defined.

(** * The rest of the script *)

Section ShellFacts.

Variable requests_head : list event -> string -> py string.
Variable urlparse : string -> py ParseResult.
Variable py_int : string -> option Z.
Variable files_upload : py (list (string * csv_reader)).
Variable open_w : string -> py unit.
Variable files_download : string -> py unit.
Variable unbound_message : string -> string.

Lemma printW_eq (line : string) (w : world) :
  printW line w = (Return tt, printed [line] w).
Proof. reflexivity. Qed.

Lemma printed_nil (w : world) : printed [] w = w.
Proof.
  destruct w as [[o t] i p wr d]. unfold printed. simpl.
  now rewrite app_nil_r.
Qed.

Lemma printed_printed (l1 l2 : list string) (w : world) :
  printed l2 (printed l1 w) = printed (l1 ++ l2) w.
Proof.
  unfold printed. simpl. now rewrite map_app, app_assoc.
Qed.

Lemma print_columns_eq (header : row) :
  forall (i : nat) (w : world),
    print_columns i header w = (Return tt, printed (column_lines i header) w).
Proof.
  induction header as [ | col rest IH]; intros i w; simpl.
  - unfold retW. now rewrite printed_nil.
  - unfold bindW. rewrite printW_eq, IH, printed_printed. reflexivity.
Qed.

(** The loop on a line it accepts after lines it turns down. *)
Lemma ask_column_accepts (header : row) (good : string) (rest : list string)
    (column_index : Z) (wr : list (string * list row)) (dl : list string) :
  py_int good = Some column_index ->
  valid_selection header column_index = true ->
  forall (bad : list string) (c : state) (p : list string),
    Forall (rejected py_int header) bad ->
    ask_column py_int header (bad ++ good :: rest)
               (mkWorld c (bad ++ good :: rest) p wr dl)
    = (Return column_index,
       mkWorld (mkState (output c)
                        (trace c ++ map Printed
                                      (map (rejection_message py_int) bad)))
               rest (p ++ repeat column_prompt (S (length bad))) wr dl).
Proof.
  intros Hint Hvalid.
  induction bad as [ | b bad IH]; intros c p Hbad; simpl.
  - unfold bindW, input. simpl. rewrite Hint, Hvalid. unfold retW.
    destruct c as [o t]. simpl. now rewrite app_nil_r.
  - inversion Hbad as [ | ? ? Hb Hbad']; subst.
    unfold bindW at 1, input. simpl.
    unfold rejected in Hb.
    destruct (py_int b) as [ci | ] eqn:Eb.
    + assert (Hm : rejection_message py_int b
                   = "Invalid selection. Please choose a number from the list.")
        by (unfold rejection_message; now rewrite Eb).
      rewrite Hb, Hm. unfold bindW. rewrite printW_eq. unfold printed. simpl.
      rewrite (IH _ _ Hbad'). simpl. rewrite <- !app_assoc. reflexivity.
    + assert (Hm : rejection_message py_int b = "Please enter a valid number.")
        by (unfold rejection_message; now rewrite Eb).
      rewrite Hm. unfold bindW. rewrite printW_eq. unfold printed. simpl.
      rewrite (IH _ _ Hbad'). simpl. rewrite <- !app_assoc. reflexivity.
Qed.

(** The loop on lines it turns down to the last: the end of input. *)
Lemma ask_column_end_of_input (header : row)
    (wr : list (string * list row)) (dl : list string) :
  forall (lines : list string) (c : state) (p : list string),
    Forall (rejected py_int header) lines ->
    ask_column py_int header lines (mkWorld c lines p wr dl)
    = (Raise (OtherException "EOFError" "EOF when reading a line"),
       mkWorld (mkState (output c)
                        (trace c ++ map Printed
                                      (map (rejection_message py_int) lines)))
               [] (p ++ repeat column_prompt (S (length lines))) wr dl).
Proof.
  induction lines as [ | b lines IH]; intros c p Hbad; simpl.
  - unfold bindW, input. simpl. destruct c as [o t]. simpl.
    now rewrite app_nil_r.
  - inversion Hbad as [ | ? ? Hb Hbad']; subst.
    unfold bindW at 1, input. simpl.
    unfold rejected in Hb.
    destruct (py_int b) as [ci | ] eqn:Eb.
    + assert (Hm : rejection_message py_int b
                   = "Invalid selection. Please choose a number from the list.")
        by (unfold rejection_message; now rewrite Eb).
      rewrite Hb, Hm. unfold bindW. rewrite printW_eq. unfold printed. simpl.
      rewrite (IH _ _ Hbad'). simpl. rewrite <- !app_assoc. reflexivity.
    + assert (Hm : rejection_message py_int b = "Please enter a valid number.")
        by (unfold rejection_message; now rewrite Eb).
      rewrite Hm. unfold bindW. rewrite printW_eq. unfold printed. simpl.
      rewrite (IH _ _ Hbad'). simpl. rewrite <- !app_assoc. reflexivity.
Qed.

(** Whatever is typed, the loop touches neither files nor downloads nor
    the output buffer, and a column it returns is one of the header. *)
Lemma ask_column_frame (header : row) :
  forall (lines : list string) (w w' : world) (r : py Z),
    ask_column py_int header lines w = (r, w') ->
    written w' = written w /\
    downloads w' = downloads w /\
    output (core w') = output (core w) /\
    forall column_index, r = Return column_index ->
      valid_selection header column_index = true.
Proof.
  induction lines as [ | l lines IH]; intros w w' r H; simpl in H.
  - unfold bindW, input, raiseW in H.
    destruct (stdin w); injection H as <- <-; simpl; repeat split;
      intros ci H; discriminate H.
  - unfold bindW at 1, input in H.
    destruct (stdin w) as [ | line rest].
    + injection H as <- <-. simpl. repeat split. intros ci H; discriminate H.
    + destruct (py_int line) as [ci | ].
      * destruct (valid_selection header ci) eqn:Hv.
        -- unfold retW in H. injection H as <- <-. simpl. repeat split.
           intros ci' H. injection H as <-. exact Hv.
        -- unfold bindW in H. rewrite printW_eq in H.
           apply IH in H. exact H.
      * unfold bindW in H. rewrite printW_eq in H.
        apply IH in H. exact H.
Qed.

Lemma get_column_selection_eq (header : row) (w : world) :
  get_column_selection py_int header w
  = let w1 := printed ("Available columns:" :: column_lines 0 header) w in
    ask_column py_int header (stdin w) w1.
Proof.
  unfold get_column_selection, bindW.
  rewrite printW_eq, print_columns_eq, printed_printed. reflexivity.
Qed.

End ShellFacts.

(** X8: a column index that [get_column_selection] returns is an index
    into the header it was shown: [0 <= column_index < len(header)];
    and whatever is typed, the function writes no file and starts no
    download. *)
Theorem get_column_selection_in_range
    (py_int : string -> option Z) (header : row) (w : world)
    (column_index : Z) :
  fst (get_column_selection py_int header w) = Return column_index ->
  0 <= column_index < Z.of_nat (length header) /\
  written (snd (get_column_selection py_int header w)) = written w /\
  downloads (snd (get_column_selection py_int header w)) = downloads w.
Proof.
  rewrite get_column_selection_eq. cbv zeta.
  destruct (ask_column py_int header (stdin w)
              (printed ("Available columns:" :: column_lines 0 header) w))
    as [r w'] eqn:E.
  destruct (ask_column_frame py_int header _ _ _ _ E) as [Hw [Hd [_ Hv]]].
  simpl. intros ->. specialize (Hv column_index eq_refl).
  unfold valid_selection in Hv. apply andb_prop in Hv. destruct Hv as [H0 H1].
  apply Z.leb_le in H0. apply Z.ltb_lt in H1.
  split; [lia | split; assumption].
Qed.

(** The user types x, then 7, then 1 for a header of two columns. *)
Lemma get_column_selection_in_range_witness :
  fst (get_column_selection sample_int ["id"; "url"] (typing ["x"; "7"; "1"]))
  = Return 1 /\
  0 <= 1 < Z.of_nat (length ["id"; "url"]).
Proof.
  split; [reflexivity | ].
  apply (get_column_selection_in_range sample_int ["id"; "url"]
           (typing ["x"; "7"; "1"]) 1 eq_refl).
Defined.

(** The selection on a line it accepts after lines it turns down. *)
Lemma get_column_selection_accepts
    (py_int : string -> option Z) (header : row) (w : world)
    (bad : list string) (good : string) (rest : list string)
    (column_index : Z) :
  stdin w = (bad ++ good :: rest)%list ->
  Forall (rejected py_int header) bad ->
  py_int good = Some column_index ->
  valid_selection header column_index = true ->
  get_column_selection py_int header w
  = (Return column_index,
     mkWorld
       (core (printed (("Available columns:" :: column_lines 0 header)
                         ++ map (rejection_message py_int) bad) w))
       rest
       (prompts w ++ repeat column_prompt (S (length bad)))
       (written w) (downloads w)).
Proof.
  intros Hin Hbad Hint Hvalid.
  rewrite get_column_selection_eq. cbv zeta.
  destruct w as [c i p wr dl]. simpl in Hin. subst i.
  unfold printed at 1. cbn [core stdin prompts written downloads].
  rewrite (ask_column_accepts py_int header good rest column_index wr dl
             Hint Hvalid bad _ p Hbad).
  unfold printed. cbn [core stdin prompts written downloads output trace].
  rewrite !map_app, <- !app_assoc. reflexivity.
Qed.

(** X9: [get_column_selection] returns the first line typed that is an
    integer inside the header.  Before it, the menu is printed (a title
    and one numbered line per column); every line turned down is
    answered with its message ("Please enter a valid number." for a
    line that is no integer, "Invalid selection. ..." for an integer
    outside the header); the prompt is shown once per line read; the
    lines after the accepted one stay on standard input. *)
Theorem get_column_selection_takes_first_valid_line
    (py_int : string -> option Z) (header : row) (w : world)
    (bad : list string) (good : string) (rest : list string)
    (column_index : Z) :
  stdin w = (bad ++ good :: rest)%list ->
  Forall (rejected py_int header) bad ->
  py_int good = Some column_index ->
  valid_selection header column_index = true ->
  get_column_selection py_int header w
  = (Return column_index,
     mkWorld
       (core (printed (("Available columns:" :: column_lines 0 header)
                         ++ map (rejection_message py_int) bad) w))
       rest
       (prompts w ++ repeat column_prompt (S (length bad)))
       (written w) (downloads w)).
Proof.
  intros Hin Hbad Hint Hvalid.
  rewrite get_column_selection_eq. cbv zeta.
  destruct w as [[o t] i p wr dl]. simpl in Hin. subst i.
  pose proof (ask_column_accepts py_int header good rest column_index wr dl
                Hint Hvalid bad
                (mkState o (t ++ map Printed
                                   ("Available columns:" :: column_lines 0 header)))
                p Hbad) as E.
  unfold printed. cbn [core stdin prompts written downloads output trace] in *.
  rewrite E. rewrite !map_app, <- !app_assoc. reflexivity.
Qed.

(** x is no number, 7 is outside a header of two columns, 1 is taken
    and 0 is left unread. *)
Lemma get_column_selection_takes_first_valid_line_witness :
  get_column_selection sample_int ["id"; "url"] (typing ["x"; "7"; "1"; "0"])
  = (Return 1,
     mkWorld
       (mkState []
          [Printed "Available columns:"; Printed "0: id"; Printed "1: url";
           Printed "Please enter a valid number.";
           Printed "Invalid selection. Please choose a number from the list."])
       ["0"] [column_prompt; column_prompt; column_prompt] [] []).
Proof.
  apply (get_column_selection_takes_first_valid_line sample_int ["id"; "url"]
           (typing ["x"; "7"; "1"; "0"]) ["x"; "7"] "1" ["0"] 1).
  - reflexivity.
  - repeat constructor.
  - reflexivity.
  - reflexivity.
Defined.

(** X10: when no line waiting on standard input is acceptable, as is
    always the case for an empty header, [get_column_selection] never
    returns: it answers every line, reads to the end of input and
    raises the EOFError of [input], which it does not catch. *)
Theorem get_column_selection_without_valid_line
    (py_int : string -> option Z) (header : row) (w : world) :
  header = [] \/ Forall (rejected py_int header) (stdin w) ->
  get_column_selection py_int header w
  = (Raise (OtherException "EOFError" "EOF when reading a line"),
     mkWorld
       (core (printed (("Available columns:" :: column_lines 0 header)
                         ++ map (rejection_message py_int) (stdin w)) w))
       []
       (prompts w ++ repeat column_prompt (S (length (stdin w))))
       (written w) (downloads w)).
Proof.
  intros H.
  assert (Hbad : Forall (rejected py_int header) (stdin w)).
  { destruct H as [-> | H]; [ | exact H].
    apply Forall_forall. intros line _. unfold rejected.
    destruct (py_int line) as [ci | ]; [ | exact I].
    unfold valid_selection. simpl.
    destruct (Z.leb_spec 0 ci); [ | reflexivity].
    destruct (Z.ltb_spec ci 0); [lia | reflexivity]. }
  rewrite get_column_selection_eq. cbv zeta.
  destruct w as [c i p wr dl]. simpl in Hbad.
  unfold printed at 1. cbn [core stdin prompts written downloads].
  rewrite (ask_column_end_of_input py_int header wr dl i _ p Hbad).
  unfold printed. cbn [core stdin prompts written downloads output trace].
  rewrite !map_app, <- !app_assoc. reflexivity.
Qed.

(** With no column to choose from even 0 is turned down. *)
Lemma get_column_selection_without_valid_line_witness :
  get_column_selection sample_int [] (typing ["0"])
  = (Raise (OtherException "EOFError" "EOF when reading a line"),
     mkWorld
       (mkState []
          [Printed "Available columns:";
           Printed "Invalid selection. Please choose a number from the list."])
       [] [column_prompt; column_prompt] [] []).
Proof.
  apply (get_column_selection_without_valid_line sample_int [] (typing ["0"])).
  left; reflexivity.
Defined.

(** X11: [get_csv_file] announces the upload and returns the name and
    the content of the first file uploaded, whatever else was uploaded
    with it; when nothing was uploaded it raises StopIteration.  The
    lookup of the first key never fails. *)
Theorem get_csv_file_takes_first_upload
    (uploaded : list (string * csv_reader)) (w : world) :
  get_csv_file (Return uploaded) w
  = (match uploaded with
     | [] => Raise StopIteration
     | (filename, content) :: _ => Return (filename, content)
     end,
     printed ["Please upload your CSV file."] w).
Proof.
  unfold get_csv_file, bindW, liftW. rewrite printW_eq.
  destruct uploaded as [ | [filename content] others]; simpl; [reflexivity | ].
  now rewrite String.eqb_refl.
Qed.

Section MainFacts.

Variable requests_head : list event -> string -> py string.
Variable urlparse : string -> py ParseResult.
Variable py_int : string -> option Z.
Variable files_upload : py (list (string * csv_reader)).
Variable open_w : string -> py unit.
Variable files_download : string -> py unit.
Variable unbound_message : string -> string.

Lemma bindW_return {A B} (m : W A) (k : A -> W B) (w w1 : world) (a : A) :
  m w = (Return a, w1) -> bindW m k w = k a w1.
Proof. intros H. unfold bindW. now rewrite H. Qed.

Lemma bindW_raise {A B} (m : W A) (k : A -> W B) (w w1 : world)
    (e : exception) :
  m w = (Raise e, w1) -> bindW m k w = (Raise e, w1).
Proof. intros H. unfold bindW. now rewrite H. Qed.

Lemma run_eq {A} (m : M A) (w : world) :
  run m w = (fst (m (core w)),
             mkWorld (snd (m (core w))) (stdin w) (prompts w) (written w)
                     (downloads w)).
Proof. unfold run. now destruct (m (core w)). Qed.

Lemma get_csv_file_eq (w : world) :
  get_csv_file files_upload w
  = (match files_upload with
     | Raise e => Raise e
     | Return [] => Raise StopIteration
     | Return ((filename, content) :: _) => Return (filename, content)
     end,
     printed ["Please upload your CSV file."] w).
Proof.
  unfold get_csv_file, bindW, liftW. rewrite printW_eq.
  destruct files_upload as [[ | [filename content] others] | e]; simpl;
    try reflexivity.
  now rewrite String.eqb_refl.
Qed.

(** Saving and downloading, by cases on the two calls that can fail. *)
Lemma save_and_download_csv_eq (content : list row) (filename : string)
    (w : world) :
  save_and_download_csv open_w files_download content filename w
  = match open_w filename with
    | Raise e => (Raise e, w)
    | Return _ =>
        match files_download filename with
        | Raise e =>
            (Raise e,
             mkWorld (core w) (stdin w) (prompts w)
                     (written w ++ [(filename, content)]) (downloads w))
        | Return _ =>
            (Return tt,
             mkWorld (core w) (stdin w) (prompts w)
                     (written w ++ [(filename, content)])
                     (downloads w ++ [filename]))
        end
    end.
Proof.
  unfold save_and_download_csv, bindW, liftW, write_file, record_download.
  destruct (open_w filename); [ | reflexivity].
  destruct (files_download filename); reflexivity.
Qed.

End MainFacts.

Lemma get_column_selection_files
    (py_int : string -> option Z) (header : row) (w : world) :
  written (snd (get_column_selection py_int header w)) = written w /\
  downloads (snd (get_column_selection py_int header w)) = downloads w.
Proof.
  rewrite get_column_selection_eq. cbv zeta.
  destruct (ask_column py_int header (stdin w)
              (printed ("Available columns:" :: column_lines 0 header) w))
    as [r w'] eqn:E.
  destruct (ask_column_frame py_int header _ _ _ _ E) as [Hw [Hd _]].
  simpl. split; assumption.
Qed.

Lemma get_column_selection_valid
    (py_int : string -> option Z) (header : row) (w : world)
    (column_index : Z) :
  fst (get_column_selection py_int header w) = Return column_index ->
  valid_selection header column_index = true.
Proof.
  rewrite get_column_selection_eq. cbv zeta.
  destruct (ask_column py_int header (stdin w)
              (printed ("Available columns:" :: column_lines 0 header) w))
    as [r w'] eqn:E.
  destruct (ask_column_frame py_int header _ _ _ _ E) as [_ [_ [_ Hv]]].
  simpl. intros ->. now apply Hv.
Qed.

Section MainOutcome.

Variable requests_head : list event -> string -> py string.
Variable urlparse : string -> py ParseResult.
Variable py_int : string -> option Z.
Variable files_upload : py (list (string * csv_reader)).
Variable open_w : string -> py unit.
Variable files_download : string -> py unit.
Variable unbound_message : string -> string.

(** How the body of the [try] ends, and what it has done to the files by
    then: nothing before the document is complete; the document written
    under the name of the upload prefixed with unshortened_; the
    download after the writing. *)
Lemma main_body_outcome (w w0 : world) (rb : py unit) :
  main_body requests_head urlparse py_int files_upload open_w files_download w
  = (rb, w0) ->
  (written w0 = written w /\ downloads w0 = downloads w /\
   exists e, rb = Raise e)
  \/
  (exists filename content out,
     processed_upload requests_head urlparse files_upload filename content out /\
     written w0
     = (written w ++ [(("unshortened_" ++ filename)%string, out)])%list /\
     ((downloads w0 = downloads w /\ exists e, rb = Raise e) \/
      (downloads w0
       = (downloads w ++ [("unshortened_" ++ filename)%string])%list /\
       rb = Return tt /\
       exists w1,
         w0 = printed ["Processing complete. Results downloaded as "
                         ++ "unshortened_" ++ filename] w1))).
Proof.
  unfold main_body. intros H.
  pose proof (get_csv_file_eq files_upload w) as E1.
  destruct files_upload as [[ | [filename content] others] | e] eqn:Hup.
  - rewrite (bindW_raise _ _ _ _ _ E1) in H. injection H as <- <-.
    left. simpl. eauto.
  - rewrite (bindW_return _ _ _ _ _ E1) in H. cbn [fst snd] in H.
    set (w1 := printed ["Please upload your CSV file."] w) in *.
    pose proof (run_eq (next content) w1) as E2.
    destruct content as [ | header rest | e].
    + rewrite (bindW_raise _ _ _ _ _ E2) in H. injection H as <- <-.
      left. simpl. eauto.
    + rewrite (bindW_return _ _ _ _ _ E2) in H. cbn [fst snd] in H.
      cbn [next ret fst snd] in H.
      match type of H with
      | bindW _ _ ?w2 = _ => set (w2' := w2) in *
      end.
      destruct (get_column_selection py_int header w2') as [[ci | e] w3] eqn:E3.
      * rewrite (bindW_return _ _ _ _ _ E3) in H.
        assert (Hci : fst (get_column_selection py_int header w2') = Return ci)
          by now rewrite E3.
        pose proof (get_column_selection_valid py_int header w2' ci Hci)
          as Hvalid.
        destruct (get_column_selection_files py_int header w2') as [Hw3 Hd3].
        rewrite E3 in Hw3, Hd3. simpl in Hw3, Hd3.
        pose proof (run_eq (process_csv requests_head urlparse
                              (Yield header rest) ci) w3) as E4.
        destruct (fst (process_csv requests_head urlparse (Yield header rest)
                         ci (core w3))) as [out | e] eqn:Hp.
        -- rewrite (bindW_return _ _ _ _ _ E4) in H. cbv zeta in H.
           match type of H with
           | bindW _ _ ?w4 = _ => set (w4' := w4) in *
           end.
           pose proof (save_and_download_csv_eq open_w files_download out
                         ("unshortened_" ++ filename) w4') as E5.
           destruct (open_w ("unshortened_" ++ filename)) as [[] | e].
           ++ destruct (files_download ("unshortened_" ++ filename)) as [[] | e].
              ** rewrite (bindW_return _ _ _ _ _ E5) in H.
                 rewrite printW_eq in H. injection H as <- <-.
                 right. exists filename, (Yield header rest), out.
                 split; [ | split].
                 --- exists others, header, rest, ci, (core w3).
                     repeat split; assumption.
                 --- simpl. now rewrite Hw3.
                 --- right. simpl. rewrite Hd3.
                     split; [reflexivity | split; [reflexivity | eauto]].
              ** rewrite (bindW_raise _ _ _ _ _ E5) in H. injection H as <- <-.
                 right. exists filename, (Yield header rest), out.
                 split; [ | split].
                 --- exists others, header, rest, ci, (core w3).
                     repeat split; assumption.
                 --- simpl. now rewrite Hw3.
                 --- left. simpl. rewrite Hd3. eauto.
           ++ rewrite (bindW_raise _ _ _ _ _ E5) in H. injection H as <- <-.
              left. simpl. rewrite Hw3, Hd3. eauto.
        -- rewrite (bindW_raise _ _ _ _ _ E4) in H. injection H as <- <-.
           left. simpl. rewrite Hw3, Hd3. eauto.
      * rewrite (bindW_raise _ _ _ _ _ E3) in H. injection H as <- <-.
        pose proof (get_column_selection_files py_int header w2') as Hf.
        rewrite E3 in Hf. simpl in Hf. left. destruct Hf as [-> ->]. eauto.
    + rewrite (bindW_raise _ _ _ _ _ E2) in H. injection H as <- <-.
      left. simpl. eauto.
  - rewrite (bindW_raise _ _ _ _ _ E1) in H. injection H as <- <-.
    left. simpl. eauto.
Qed.

End MainOutcome.

(** A completed transformation makes every row one cell longer. *)
Lemma process_csv_lengths
    (requests_head : list event -> string -> py string)
    (urlparse : string -> py ParseResult)
    (file_content : csv_reader) (column_index : Z) (s : state)
    (out : list row) :
  fst (process_csv requests_head urlparse file_content column_index s)
  = Return out ->
  Forall2 (fun r o => length o = S (length r)) (rows_of file_content) out.
Proof.
  intros H.
  destruct (process_csv_completed _ _ _ _ _ _ H)
    as [header [rows [steps [-> [HF [-> _]]]]]].
  rewrite rows_of_reader_of. constructor.
  - rewrite length_app. simpl. lia.
  - assert (Hlen : length (map fst steps) = length rows).
    { rewrite length_map. symmetry. exact (Forall2_length HF). }
    pose proof (append_cells_Forall2 rows (map fst steps) Hlen) as HA.
    clear - HA. induction HA as [ | r o rows outs [c ->] _ IH]; constructor.
    + rewrite length_app. simpl. lia.
    + exact IH.
Qed.

(** The transformation completes when its URLs are resolvable and the
    first data row, if any, reaches the column. *)
Lemma process_csv_completes
    (requests_head : list event -> string -> py string)
    (urlparse : string -> py ParseResult)
    (header : row) (rows : list row) (column_index : Z) (s : state) :
  0 <= column_index ->
  resolvable requests_head urlparse (flat_map (requested column_index) rows) ->
  rows = [] \/
  (exists r rows', rows = r :: rows' /\ column_index < Z.of_nat (length r)) ->
  exists out s',
    process_csv requests_head urlparse (reader_of (header :: rows))
                column_index s = (Return out, s') /\
    length out = S (length rows).
Proof.
  intros Hci Hres Hok. simpl reader_of. rewrite process_csv_header.
  destruct (for_rows_runs_through requests_head urlparse column_index Hci
              (reader_of rows) no_locals
              (mkState [(header ++ ["Unshortened URL"])%list] (trace s)))
    as [s' [Hrun Hlen]].
  - now rewrite rows_of_reader_of.
  - right. now rewrite rows_of_reader_of.
  - rewrite Hrun.
    assert (E : reader_end (reader_of rows) = None)
      by (clear; induction rows; simpl; auto).
    rewrite E. do 2 eexists. split; [reflexivity | ].
    rewrite Hlen, rows_of_reader_of. reflexivity.
Qed.

(** C8: the data rows written are the data rows read, in the same
    order, each with all its cells in place and one cell appended at the
    end, up to the row where a run stopped.  And rows are emitted: for
    a well-formed file, a column index that is not negative, resolvable
    URLs and a first data row that reaches the column, [process_csv]
    returns the header row followed by every data row with its cell
    appended, in file order, after handling the rows one at a time: the
    events of the run are the blocks of the rows in file order, each
    block holding at most one HEAD request and ending with that row's
    progress line. *)
Theorem process_csv_preserves_rows_in_order
    (requests_head : list event -> string -> py string)
    (urlparse : string -> py ParseResult)
    (file_content : csv_reader) (column_index : Z) (s : state) :
  let X := process_csv requests_head urlparse file_content column_index s in
  let data_rows := tl (rows_of file_content) in
  (exists cells,
     (length cells <= length data_rows)%nat /\
     tl (output (snd X)) = append_cells data_rows cells /\
     match fst X with
     | Return out =>
         tl out = append_cells data_rows cells /\
         length cells = length data_rows /\
         exists steps,
           Forall2 (row_step column_index) data_rows steps /\
           cells = map fst steps /\
           trace (snd X) = (trace s ++ concat (map snd steps))%list
     | Raise _ => True
     end)
  /\
  (forall header rows,
     file_content = reader_of (header :: rows) ->
     0 <= column_index ->
     resolvable requests_head urlparse (flat_map (requested column_index) rows) ->
     rows = [] \/
     (exists r rows', rows = r :: rows' /\ column_index < Z.of_nat (length r)) ->
     exists out cells steps,
       fst X = Return out /\
       out = (header ++ ["Unshortened URL"])%list :: append_cells rows cells /\
       length cells = length rows /\
       Forall2 (row_step column_index) rows steps /\
       cells = map fst steps /\
       trace (snd X) = (trace s ++ concat (map snd steps))%list).
Proof.
  cbv zeta. split.
  - destruct file_content as [ | header reader | e].
    + exists []. simpl. repeat split. lia.
    + destruct (process_csv_spec requests_head urlparse column_index header
                  reader s) as [cells [Hlen [Hout Hret]]].
      cbn [rows_of tl]. exists cells.
      split; [exact Hlen | split; [now rewrite Hout | ]].
      destruct (fst (process_csv requests_head urlparse (Yield header reader)
                       column_index s)) as [out | e] eqn:E; [ | exact I].
      destruct (Hret out eq_refl) as [-> [_ [steps [HF [Hc Ht]]]]].
      split; [now rewrite Hout | split].
      * rewrite Hc, length_map. symmetry. exact (Forall2_length HF).
      * now exists steps.
    + exists []. simpl. repeat split. lia.
  - intros header rows -> Hci Hres Hok.
    destruct (process_csv_completes requests_head urlparse header rows
                column_index s Hci Hres Hok) as [out [s' [Hp _]]].
    assert (Hout : fst (process_csv requests_head urlparse
                          (reader_of (header :: rows)) column_index s)
                   = Return out) by now rewrite Hp.
    destruct (process_csv_completed _ _ _ _ _ _ Hout)
      as [header0 [rows0 [steps [Hfile [HF [-> Ht]]]]]].
    apply (f_equal rows_of) in Hfile. rewrite !rows_of_reader_of in Hfile.
    injection Hfile as <- <-.
    exists ((header ++ ["Unshortened URL"])%list
            :: append_cells rows (map fst steps)), (map fst steps), steps.
    split; [exact Hout | split; [reflexivity | split]].
    + rewrite length_map. symmetry. exact (Forall2_length HF).
    + split; [exact HF | split; [reflexivity | exact Ht]].
Qed.

(** The sample file: its four data rows come back in order, each with
    one more cell, after three requests sent one at a time. *)
Lemma process_csv_preserves_rows_in_order_witness :
  exists out cells steps,
    fst (process_csv sample_head UrlParse.urlparse (reader_of sample_rows) 1 s0)
    = Return out /\
    out = (["id"; "url"] ++ ["Unshortened URL"])%list
          :: append_cells (tl sample_rows) cells /\
    length cells = 4%nat /\
    Forall2 (row_step 1) (tl sample_rows) steps /\
    cells = map fst steps /\
    trace (snd (process_csv sample_head UrlParse.urlparse
                  (reader_of sample_rows) 1 s0))
    = (trace s0 ++ concat (map snd steps))%list.
Proof.
  apply (proj2 (process_csv_preserves_rows_in_order sample_head
                  UrlParse.urlparse (reader_of sample_rows) 1 s0)
           ["id"; "url"] (tl sample_rows) eq_refl ltac:(lia)
           sample_rows_resolvable).
  right. do 2 eexists. split; [reflexivity | simpl; lia].
Defined.

Section MainTheorems.

Variable requests_head : list event -> string -> py string.
Variable urlparse : string -> py ParseResult.
Variable py_int : string -> option Z.
Variable files_upload : py (list (string * csv_reader)).
Variable open_w : string -> py unit.
Variable files_download : string -> py unit.
Variable unbound_message : string -> string.

(** X13: [main] writes and downloads nothing unless [process_csv]
    returned a document for the first uploaded file and a column inside
    its header.  Then it writes exactly that document, once, under the
    upload's name prefixed with unshortened_, and downloads at most that
    file; the document has one row per row of the upload, each longer by
    one cell. *)
Theorem main_writes_only_the_processed_file (w : world) :
  let w' := snd (main requests_head urlparse py_int files_upload open_w
                      files_download unbound_message w) in
  (written w' = written w /\ downloads w' = downloads w)
  \/
  exists filename content out,
    processed_upload requests_head urlparse files_upload filename content out /\
    written w'
    = (written w ++ [(("unshortened_" ++ filename)%string, out)])%list /\
    (downloads w' = downloads w \/
     downloads w'
     = (downloads w ++ [("unshortened_" ++ filename)%string])%list) /\
    Forall2 (fun r o => length o = S (length r)) (rows_of content) out.
Proof.
  unfold main, try_except_Exception.
  destruct (main_body requests_head urlparse py_int files_upload open_w
              files_download w) as [rb w0] eqn:H.
  assert (Hw' : let w' := snd (match rb with
                               | Return a => (Return a, w0)
                               | Raise e =>
                                   if is_Exception e
                                   then printW ("An error occurred: "
                                                  ++ py_str unbound_message e) w0
                                   else (Raise e, w0)
                               end) in
                written w' = written w0 /\ downloads w' = downloads w0).
  { destruct rb as [[] | e]; [split; reflexivity | ].
    destruct (is_Exception e); split; reflexivity. }
  cbv zeta in *. destruct Hw' as [-> ->].
  destruct (main_body_outcome _ _ _ _ _ _ _ _ _ H)
    as [[Hw [Hd _]] | [filename [content [out [Hup [Hw Hd]]]]]].
  - left. split; assumption.
  - right. exists filename, content, out.
    split; [exact Hup | split; [exact Hw | split]].
    + destruct Hd as [[Hd _] | [Hd _]]; [now left | now right].
    + destruct Hup as [others [header [rest [ci [s [_ [_ [_ Hp]]]]]]]].
      exact (process_csv_lengths _ _ _ _ _ _ Hp).
Qed.

End MainTheorems.

Section MainRuns.

Variable requests_head : list event -> string -> py string.
Variable urlparse : string -> py ParseResult.
Variable py_int : string -> option Z.
Variable open_w : string -> py unit.
Variable files_download : string -> py unit.
Variable unbound_message : string -> string.

(** The world once a column has been chosen for an uploaded file. *)
Lemma main_body_after_selection
    (filename : string) (header : row) (rest : csv_reader)
    (others : list (string * csv_reader)) (w : world)
    (bad : list string) (good : string) (more : list string)
    (column_index : Z) :
  stdin w = (bad ++ good :: more)%list ->
  Forall (rejected py_int header) bad ->
  py_int good = Some column_index ->
  valid_selection header column_index = true ->
  main_body requests_head urlparse py_int
            (Return ((filename, Yield header rest) :: others))
            open_w files_download w
  = (processed_content <~
       run (process_csv requests_head urlparse (Yield header rest) column_index) ;;
     save_and_download_csv open_w files_download processed_content
                           ("unshortened_" ++ filename) ;;~
     printW ("Processing complete. Results downloaded as "
               ++ "unshortened_" ++ filename))
      (mkWorld
         (core (printed (("Available columns:" :: column_lines 0 header)
                           ++ map (rejection_message py_int) bad)
                        (printed ["Please upload your CSV file."] w)))
         more
         (prompts w ++ repeat column_prompt (S (length bad)))
         (written w) (downloads w)).
Proof.
  intros Hin Hbad Hint Hvalid. unfold main_body.
  rewrite (bindW_return _ _ _ _ _
             (get_csv_file_eq (Return ((filename, Yield header rest) :: others))
                              w)).
  cbn [fst snd].
  rewrite (bindW_return _ _ _ _ _
             (run_eq (next (Yield header rest))
                     (printed ["Please upload your CSV file."] w))).
  cbn [next ret fst snd].
  match goal with
  | |- bindW _ _ ?w2 = _ =>
      assert (Hin2 : stdin w2 = (bad ++ good :: more)%list) by exact Hin;
      rewrite (bindW_return _ _ _ _ _
                 (get_column_selection_accepts py_int header w2 bad good more
                    column_index Hin2 Hbad Hint Hvalid))
  end.
  reflexivity.
Qed.

(** X14: when nothing is uploaded, or the first uploaded file is empty,
    there is no header row: [main] asks nothing, transforms nothing,
    writes and downloads nothing; it prints the upload notice and then
    "An error occurred: " with nothing after the colon, StopIteration
    having no message. *)
Theorem main_without_header_row
    (uploaded : list (string * csv_reader)) (w : world) :
  uploaded = [] \/
  (exists filename others, uploaded = (filename, Exhausted) :: others) ->
  main requests_head urlparse py_int (Return uploaded) open_w files_download
       unbound_message w
  = (Return tt,
     printed ["Please upload your CSV file."; "An error occurred: "] w).
Proof.
  intros [-> | [filename [others ->]]]; unfold main, try_except_Exception,
    main_body.
  - rewrite (bindW_raise _ _ _ _ _ (get_csv_file_eq (Return []) w)).
    cbn [is_Exception]. rewrite printW_eq, printed_printed. reflexivity.
  - rewrite (bindW_return _ _ _ _ _
               (get_csv_file_eq (Return ((filename, Exhausted) :: others)) w)).
    cbn [fst snd].
    rewrite (bindW_raise _ _ _ _ _
               (run_eq (next Exhausted)
                       (printed ["Please upload your CSV file."] w))).
    cbn [is_Exception]. rewrite printW_eq.
    destruct w as [[o t] i p wr dl]. unfold printed. simpl.
    rewrite <- app_assoc. reflexivity.
Qed.

End MainRuns.

(** An empty file is uploaded. *)
Lemma main_without_header_row_witness :
  sample_main (Return [("empty.csv", Exhausted)]) (typing ["0"])
  = (Return tt,
     printed ["Please upload your CSV file."; "An error occurred: "]
             (typing ["0"])).
Proof.
  apply main_without_header_row. right. do 2 eexists. reflexivity.
Defined.

(** X15: seen from [main], a first data row too short for the chosen
    column ends the run with the line "An error occurred: ..." carrying
    the message of the UnboundLocalError for [shortened_url]; [main]
    returns normally, and no file is written or downloaded although the
    header and that row had been transformed. *)
Theorem main_reports_short_first_row
    (requests_head : list event -> string -> py string)
    (urlparse : string -> py ParseResult)
    (py_int : string -> option Z)
    (open_w files_download : string -> py unit)
    (unbound_message : string -> string)
    (filename : string) (header r : row) (rest : csv_reader)
    (others : list (string * csv_reader)) (w : world)
    (bad : list string) (good : string) (more : list string)
    (column_index : Z) :
  stdin w = (bad ++ good :: more)%list ->
  Forall (rejected py_int header) bad ->
  py_int good = Some column_index ->
  valid_selection header column_index = true ->
  Z.of_nat (length r) <= column_index ->
  let X := main requests_head urlparse py_int
                (Return ((filename, Yield header (Yield r rest)) :: others))
                open_w files_download unbound_message w in
  fst X = Return tt /\
  written (snd X) = written w /\
  downloads (snd X) = downloads w /\
  output (core (snd X))
  = [(header ++ ["Unshortened URL"])%list;
     (r ++ ["Error: Column index out of range"])%list] /\
  exists t,
    trace (core (snd X))
    = (t ++ [Printed ("An error occurred: "
                        ++ unbound_message "shortened_url")])%list.
Proof.
  intros Hin Hbad Hint Hvalid Hshort.
  unfold main, try_except_Exception.
  rewrite (main_body_after_selection requests_head urlparse py_int open_w
             files_download filename header (Yield r rest) others w bad good
             more column_index Hin Hbad Hint Hvalid).
  match goal with
  | |- context [bindW (run ?m) ?k ?w3] =>
      pose proof (run_eq m w3) as E;
      rewrite (process_csv_short_first_row requests_head urlparse column_index
                 header r rest _ Hshort) in E;
      rewrite (bindW_raise _ _ _ _ _ E)
  end.
  cbn [is_Exception fst snd]. rewrite printW_eq.
  cbv zeta. cbn [fst snd printed core written downloads output trace map py_str].
  repeat split. eexists. reflexivity.
Qed.

(** The file with a short first data row is uploaded and column 1 is
    chosen. *)
Lemma main_reports_short_first_row_witness :
  let X := sample_main (Return [("links.csv", reader_of short_first_rows)])
                       (typing ["1"]) in
  fst X = Return tt /\ written (snd X) = [] /\ downloads (snd X) = [] /\
  output (core (snd X))
  = [["id"; "url"; "Unshortened URL"]; ["1"; "Error: Column index out of range"]] /\
  exists t,
    trace (core (snd X))
    = (t ++ [Printed ("An error occurred: "
                        ++ sample_unbound_message "shortened_url")])%list.
Proof.
  apply (main_reports_short_first_row sample_head UrlParse.urlparse sample_int
           sample_open sample_download sample_unbound_message
           "links.csv" ["id"; "url"] ["1"]
           (reader_of [["2"; "http://short.example/a"]]) []
           (typing ["1"]) [] "1" [] 1).
  - reflexivity.
  - constructor.
  - reflexivity.
  - reflexivity.
  - simpl; lia.
Defined.

(** X16: the run that goes through.  A well-formed file with a header is
    uploaded; among the lines typed there is one the selection accepts;
    the URLs of that column are resolvable and the first data row, if
    any, reaches the column; writing and downloading succeed.  Then
    [main] returns, having written one document with one row per row of
    the upload under the upload's name prefixed with unshortened_,
    downloaded it, left the lines after the accepted one unread, and
    printed "Processing complete. Results downloaded as ..." last. *)
Theorem main_completes
    (requests_head : list event -> string -> py string)
    (urlparse : string -> py ParseResult)
    (py_int : string -> option Z)
    (open_w files_download : string -> py unit)
    (unbound_message : string -> string)
    (filename : string) (header : row) (rows : list row)
    (others : list (string * csv_reader)) (w : world)
    (bad : list string) (good : string) (more : list string)
    (column_index : Z) :
  stdin w = (bad ++ good :: more)%list ->
  Forall (rejected py_int header) bad ->
  py_int good = Some column_index ->
  valid_selection header column_index = true ->
  resolvable requests_head urlparse (flat_map (requested column_index) rows) ->
  rows = [] \/
  (exists r rows', rows = r :: rows' /\ column_index < Z.of_nat (length r)) ->
  open_w ("unshortened_" ++ filename) = Return tt ->
  files_download ("unshortened_" ++ filename) = Return tt ->
  let X := main requests_head urlparse py_int
                (Return ((filename, reader_of (header :: rows)) :: others))
                open_w files_download unbound_message w in
  fst X = Return tt /\
  stdin (snd X) = more /\
  downloads (snd X) = (downloads w ++ [("unshortened_" ++ filename)%string])%list /\
  (exists out,
     written (snd X)
     = (written w ++ [(("unshortened_" ++ filename)%string, out)])%list /\
     length out = S (length rows)) /\
  exists t,
    trace (core (snd X))
    = (t ++ [Printed ("Processing complete. Results downloaded as "
                        ++ "unshortened_" ++ filename)])%list.
Proof.
  intros Hin Hbad Hint Hvalid Hres Hok Hopen Hdl.
  assert (Hci : 0 <= column_index).
  { unfold valid_selection in Hvalid. apply andb_prop in Hvalid.
    apply Z.leb_le. exact (proj1 Hvalid). }
  unfold main, try_except_Exception. simpl reader_of.
  rewrite (main_body_after_selection requests_head urlparse py_int open_w
             files_download filename header (reader_of rows) others w bad good
             more column_index Hin Hbad Hint Hvalid).
  match goal with
  | |- context [bindW (run ?m) ?k ?w3] =>
      pose proof (run_eq m w3) as E;
      destruct (process_csv_completes requests_head urlparse header rows
                  column_index (core w3) Hci Hres Hok) as [out [s' [Hp Hlen]]];
      simpl reader_of in Hp; rewrite Hp in E;
      rewrite (bindW_return _ _ _ _ _ E)
  end.
  cbv zeta.
  match goal with
  | |- context [bindW (save_and_download_csv _ _ ?c ?n) ?k ?w4] =>
      pose proof (save_and_download_csv_eq open_w files_download c n w4) as E5;
      rewrite Hopen, Hdl in E5;
      rewrite (bindW_return _ _ _ _ _ E5)
  end.
  rewrite printW_eq.
  cbn [fst snd printed core stdin written downloads output trace map].
  split; [reflexivity | split; [reflexivity | split; [reflexivity | split]]].
  - exists out. split; [reflexivity | exact Hlen].
  - eexists. reflexivity.
Qed.

(** The sample session: x and 7 are turned down, 1 is accepted, 0 is
    left unread, and unshortened_links.csv is written and downloaded. *)
Lemma main_completes_witness :
  let X := sample_main sample_upload (typing ["x"; "7"; "1"; "0"]) in
  fst X = Return tt /\
  stdin (snd X) = ["0"] /\
  downloads (snd X) = ["unshortened_links.csv"] /\
  (exists out,
     written (snd X) = [("unshortened_links.csv", out)] /\
     length out = 5%nat) /\
  exists t,
    trace (core (snd X))
    = (t ++ [Printed "Processing complete. Results downloaded as unshortened_links.csv"])%list.
Proof.
  apply (main_completes sample_head UrlParse.urlparse sample_int
           sample_open sample_download sample_unbound_message
           "links.csv" ["id"; "url"] (tl sample_rows) []
           (typing ["x"; "7"; "1"; "0"]) ["x"; "7"] "1" ["0"] 1).
  - reflexivity.
  - repeat constructor.
  - reflexivity.
  - reflexivity.
  - exact sample_rows_resolvable.
  - right. do 2 eexists. split; [reflexivity | simpl; lia].
  - reflexivity.
  - reflexivity.
Defined.

(** X12: where an exception of [process_csv] goes.  When a column has
    been chosen for the uploaded file and [process_csv] then raises [e],
    [main] writes and downloads nothing and prints nothing of its own
    but the report: for [e] of class [Exception] the line "An error
    occurred: " followed by [str(e)] is printed last and [main] returns
    normally; for [e] outside [Exception] (KeyboardInterrupt,
    SystemExit, ...) nothing is printed after [process_csv] stopped and
    [e] reaches the caller of [main]. *)
Theorem main_reports_or_passes_on_failure_of_process_csv
    (requests_head : list event -> string -> py string)
    (urlparse : string -> py ParseResult)
    (py_int : string -> option Z)
    (open_w files_download : string -> py unit)
    (unbound_message : string -> string)
    (filename : string) (header : row) (rest : csv_reader)
    (others : list (string * csv_reader)) (w : world)
    (bad : list string) (good : string) (more : list string)
    (column_index : Z) (e : exception) :
  stdin w = (bad ++ good :: more)%list ->
  Forall (rejected py_int header) bad ->
  py_int good = Some column_index ->
  valid_selection header column_index = true ->
  fst (process_csv requests_head urlparse (Yield header rest) column_index
                   (core (after_selection py_int header bad more w)))
  = Raise e ->
  let X := main requests_head urlparse py_int
                (Return ((filename, Yield header rest) :: others))
                open_w files_download unbound_message w in
  let stopped :=
    snd (process_csv requests_head urlparse (Yield header rest) column_index
                     (core (after_selection py_int header bad more w))) in
  written (snd X) = written w /\
  downloads (snd X) = downloads w /\
  stdin (snd X) = more /\
  if is_Exception e
  then fst X = Return tt /\
       trace (core (snd X))
       = (trace stopped
          ++ [Printed ("An error occurred: " ++ py_str unbound_message e)])%list
  else fst X = Raise e /\
       trace (core (snd X)) = trace stopped.
Proof.
  intros Hin Hbad Hint Hvalid Hraise.
  unfold main, try_except_Exception.
  rewrite (main_body_after_selection requests_head urlparse py_int open_w
             files_download filename header rest others w bad good
             more column_index Hin Hbad Hint Hvalid).
  fold (after_selection py_int header bad more w).
  pose proof (run_eq (process_csv requests_head urlparse (Yield header rest)
                                  column_index)
                     (after_selection py_int header bad more w)) as E.
  rewrite Hraise in E.
  rewrite (bindW_raise _ _ _ _ _ E). cbv zeta.
  destruct (is_Exception e).
  - rewrite printW_eq. repeat split.
  - repeat split.
Qed.

(** A link whose host label the connection layer rejects is reported by
    [main]; an interrupt during the first request goes through [main]. *)
Lemma main_reports_or_passes_on_failure_of_process_csv_witness :
  (let X := sample_main (Return [("links.csv", reader_of long_label_rows)])
                        (typing ["1"]) in
   fst X = Return tt /\
   written (snd X) = [] /\ downloads (snd X) = [] /\
   trace (core (snd X))
   = [Printed "Please upload your CSV file."; Printed "Available columns:";
      Printed "0: id"; Printed "1: url"; Head long_label_url;
      Printed "An error occurred: label empty or too long"])
  /\
  (let X := main interrupted_head UrlParse.urlparse sample_int sample_upload
                 sample_open sample_download sample_unbound_message
                 (typing ["1"]) in
   fst X = Raise (OtherException "KeyboardInterrupt" "") /\
   written (snd X) = [] /\ downloads (snd X) = [] /\
   trace (core (snd X))
   = [Printed "Please upload your CSV file."; Printed "Available columns:";
      Printed "0: id"; Printed "1: url"; Head "http://short.example/a"]).
Proof.
  split.
  - destruct (main_reports_or_passes_on_failure_of_process_csv
                sample_head UrlParse.urlparse sample_int sample_open
                sample_download sample_unbound_message
                "links.csv" ["id"; "url"] (reader_of [["1"; long_label_url]]) []
                (typing ["1"]) [] "1" [] 1
                (OtherException "LocationParseError" "label empty or too long")
                eq_refl (Forall_nil _) eq_refl eq_refl eq_refl)
      as [Hw [Hd [_ [Hr Ht]]]].
    cbv zeta. split; [exact Hr | split; [exact Hw | split; [exact Hd | exact Ht]]].
  - destruct (main_reports_or_passes_on_failure_of_process_csv
                interrupted_head UrlParse.urlparse sample_int sample_open
                sample_download sample_unbound_message
                "links.csv" ["id"; "url"] (reader_of (tl sample_rows)) []
                (typing ["1"]) [] "1" [] 1
                (OtherException "KeyboardInterrupt" "")
                eq_refl (Forall_nil _) eq_refl eq_refl eq_refl)
      as [Hw [Hd [_ [Hr Ht]]]].
    cbv zeta. split; [exact Hr | split; [exact Hw | split; [exact Hd | exact Ht]]].
Defined.
